(** * SBPlatform: the scripting-bridge view of a debugger platform

    A shallow embedding of [lldb/source/API/SBPlatform.cpp]: the two option
    structures ([PlatformConnectOptions], [PlatformShellCommand]), their
    SB wrappers, and the [SBPlatform] operations that talk to a
    [lldb_private::Platform] object.

    Conventions.
    - A [const char*] is an [option string]: [None] is [nullptr] and
      [Some s] points at the characters [s] that precede the terminator,
      so the test [p && p[0]] reads "[p] is [Some] of a non-empty string".
    - [std::string] and [llvm::StringRef] are [string]; [int] and
      [uint32_t] are [Z].
    - An SB wrapper that owns its structure through [m_opaque_ptr]
      (allocated in the constructor, deep-copied on assignment) is the
      structure itself; a method that mutates it returns the new value. *)

From Stdlib Require Import ZArith Ascii String List Bool Lia.
Import ListNotations.

Local Open Scope Z_scope.
Local Open Scope string_scope.

(** ** C strings and string references *)

Definition c_str := option string.

(** [std::string::empty], [llvm::StringRef::empty]. *)
Definition empty (s : string) : bool :=
  match s with
  | EmptyString => true
  | String _ _ => false
  end.

(** The implicit conversion from [const char*] to [llvm::StringRef]: a null
    pointer gives the empty reference. *)
Definition StringRef (p : c_str) : string :=
  match p with
  | Some s => s
  | None => ""
  end.

(** The mutator idiom [if (p && p[0]) field = p; else field.clear();],
    as the value the field holds afterwards.  A constructor that only has
    the first branch starts from the empty field, which is the same value. *)
Definition assign_or_clear (p : c_str) : string :=
  match p with
  | Some (String c s) => String c s
  | _ => ""
  end.

Definition UINT32_MAX : Z := 4294967295.

(** ** ConstString *)

Module ConstString.

(** Modelled from the spec: [lldb_private::ConstString]
    (lldb/Utility/ConstString.h is not among the sources).  The spec calls
    the cache directory an "optional interned string"; the value is the
    pointer to the pooled characters, null for the default-constructed
    string. *)
Record t : Type := mk { m_string : c_str }.

(** [ConstString()] *)
Definition default : t := mk None.

Definition SetCString (cstr : c_str) (_ : t) : t := mk cstr.

Definition GetCString (cs : t) : c_str := m_string cs.

End ConstString.

(** ** PlatformConnectOptions and its wrapper *)

Record PlatformConnectOptions : Type := mkConnectOptions {
  m_url : string;
  m_rsync_options : string;
  m_rsync_remote_path_prefix : string;
  m_rsync_enabled : bool;
  m_rsync_omit_hostname_from_remote_path : bool;
  m_local_cache_directory : ConstString.t
}.

Module SBPlatformConnectOptions.

(** [PlatformConnectOptions(const char* url = nullptr)] *)
Definition new (url : c_str) : PlatformConnectOptions :=
  {| m_url := assign_or_clear url;
     m_rsync_options := "";
     m_rsync_remote_path_prefix := "";
     m_rsync_enabled := false;
     m_rsync_omit_hostname_from_remote_path := false;
     m_local_cache_directory := ConstString.default |}.

Definition GetURL (o : PlatformConnectOptions) : c_str :=
  if empty (m_url o) then None else Some (m_url o).

Definition SetURL (url : c_str) (o : PlatformConnectOptions)
  : PlatformConnectOptions :=
  {| m_url := assign_or_clear url;
     m_rsync_options := m_rsync_options o;
     m_rsync_remote_path_prefix := m_rsync_remote_path_prefix o;
     m_rsync_enabled := m_rsync_enabled o;
     m_rsync_omit_hostname_from_remote_path :=
       m_rsync_omit_hostname_from_remote_path o;
     m_local_cache_directory := m_local_cache_directory o |}.

Definition GetRsyncEnabled (o : PlatformConnectOptions) : bool :=
  m_rsync_enabled o.

Definition EnableRsync (options remote_path_prefix : c_str)
    (omit_hostname_from_remote_path : bool) (o : PlatformConnectOptions)
  : PlatformConnectOptions :=
  {| m_url := m_url o;
     m_rsync_options := assign_or_clear options;
     m_rsync_remote_path_prefix := assign_or_clear remote_path_prefix;
     m_rsync_enabled := true;
     m_rsync_omit_hostname_from_remote_path :=
       omit_hostname_from_remote_path;
     m_local_cache_directory := m_local_cache_directory o |}.

Definition DisableRsync (o : PlatformConnectOptions)
  : PlatformConnectOptions :=
  {| m_url := m_url o;
     m_rsync_options := m_rsync_options o;
     m_rsync_remote_path_prefix := m_rsync_remote_path_prefix o;
     m_rsync_enabled := false;
     m_rsync_omit_hostname_from_remote_path :=
       m_rsync_omit_hostname_from_remote_path o;
     m_local_cache_directory := m_local_cache_directory o |}.

Definition GetLocalCacheDirectory (o : PlatformConnectOptions) : c_str :=
  ConstString.GetCString (m_local_cache_directory o).

Definition SetLocalCacheDirectory (path : c_str)
    (o : PlatformConnectOptions) : PlatformConnectOptions :=
  {| m_url := m_url o;
     m_rsync_options := m_rsync_options o;
     m_rsync_remote_path_prefix := m_rsync_remote_path_prefix o;
     m_rsync_enabled := m_rsync_enabled o;
     m_rsync_omit_hostname_from_remote_path :=
       m_rsync_omit_hostname_from_remote_path o;
     m_local_cache_directory :=
       match path with
       | Some (String c s) =>
           ConstString.SetCString (Some (String c s))
                                  (m_local_cache_directory o)
       | _ => ConstString.default
       end |}.

End SBPlatformConnectOptions.

(** ** PlatformShellCommand and its wrapper *)

(** [m_timeout] is a [Timeout<std::ratio<1>>]: an optional count of
    seconds held in a 64-bit signed integer. *)
Record PlatformShellCommand : Type := mkShellCommand {
  m_shell : string;
  m_command : string;
  m_working_dir : string;
  m_output : string;
  m_status : Z;
  m_signo : Z;
  m_timeout : option Z
}.

Module SBPlatformShellCommand.

(** [PlatformShellCommand(llvm::StringRef shell_interpreter,
                          llvm::StringRef shell_command)] *)
Definition make (shell_interpreter shell_command : string)
  : PlatformShellCommand :=
  let m_shell := if negb (empty shell_interpreter)
                 then shell_interpreter else "" in
  {| m_shell := m_shell;
     m_command := if negb (empty m_shell) && negb (empty shell_command)
                  then shell_command else "";
     m_working_dir := "";
     m_output := "";
     m_status := 0;
     m_signo := 0;
     m_timeout := None |}.

(** [PlatformShellCommand(llvm::StringRef shell_command =
                          llvm::StringRef())] *)
Definition make1 (shell_command : string) : PlatformShellCommand :=
  {| m_shell := "";
     m_command := if negb (empty shell_command) then shell_command else "";
     m_working_dir := "";
     m_output := "";
     m_status := 0;
     m_signo := 0;
     m_timeout := None |}.

(** [SBPlatformShellCommand(const char* shell_interpreter,
                            const char* shell_command)] *)
Definition new (shell_interpreter shell_command : c_str)
  : PlatformShellCommand :=
  make (StringRef shell_interpreter) (StringRef shell_command).

(** [SBPlatformShellCommand(const char* shell_command)] *)
Definition new1 (shell_command : c_str) : PlatformShellCommand :=
  make1 (StringRef shell_command).

Definition Clear (c : PlatformShellCommand) : PlatformShellCommand :=
  {| m_shell := m_shell c;
     m_command := m_command c;
     m_working_dir := m_working_dir c;
     m_output := "";
     m_status := 0;
     m_signo := 0;
     m_timeout := m_timeout c |}.

Definition GetShell (c : PlatformShellCommand) : c_str :=
  if empty (m_shell c) then None else Some (m_shell c).

Definition SetShell (shell_interpreter : c_str) (c : PlatformShellCommand)
  : PlatformShellCommand :=
  {| m_shell := assign_or_clear shell_interpreter;
     m_command := m_command c;
     m_working_dir := m_working_dir c;
     m_output := m_output c;
     m_status := m_status c;
     m_signo := m_signo c;
     m_timeout := m_timeout c |}.

Definition GetCommand (c : PlatformShellCommand) : c_str :=
  if empty (m_command c) then None else Some (m_command c).

Definition SetCommand (shell_command : c_str) (c : PlatformShellCommand)
  : PlatformShellCommand :=
  {| m_shell := m_shell c;
     m_command := assign_or_clear shell_command;
     m_working_dir := m_working_dir c;
     m_output := m_output c;
     m_status := m_status c;
     m_signo := m_signo c;
     m_timeout := m_timeout c |}.

Definition GetWorkingDirectory (c : PlatformShellCommand) : c_str :=
  if empty (m_working_dir c) then None else Some (m_working_dir c).

Definition SetWorkingDirectory (path : c_str) (c : PlatformShellCommand)
  : PlatformShellCommand :=
  {| m_shell := m_shell c;
     m_command := m_command c;
     m_working_dir := assign_or_clear path;
     m_output := m_output c;
     m_status := m_status c;
     m_signo := m_signo c;
     m_timeout := m_timeout c |}.

(** The count is a 64-bit integer; returning it as [uint32_t] keeps its
    low 32 bits. *)
Definition GetTimeoutSeconds (c : PlatformShellCommand) : Z :=
  match m_timeout c with
  | Some count => count mod 2 ^ 32
  | None => UINT32_MAX
  end.

Definition SetTimeoutSeconds (sec : Z) (c : PlatformShellCommand)
  : PlatformShellCommand :=
  {| m_shell := m_shell c;
     m_command := m_command c;
     m_working_dir := m_working_dir c;
     m_output := m_output c;
     m_status := m_status c;
     m_signo := m_signo c;
     m_timeout := if (sec =? UINT32_MAX)%Z then None else Some sec |}.

Definition GetSignal (c : PlatformShellCommand) : Z := m_signo c.

Definition GetStatus (c : PlatformShellCommand) : Z := m_status c.

Definition GetOutput (c : PlatformShellCommand) : c_str :=
  if empty (m_output c) then None else Some (m_output c).

End SBPlatformShellCommand.

(** ** Status, file specifications and the local file system *)

(** Modelled from the spec: [lldb_private::Status] (lldb/Utility/Status.h is
    not among the sources), the "single uniform error-carrying result":
    success, or a failure with its message.  A default-constructed status
    is [Success]. *)
Inductive Status : Type :=
| Success
| Failure (message : string).

Module SBError.

(** An [SBError] holds one [Status]; [sb_error.ref() = s] makes it [s]. *)
Definition t : Type := Status.

(** On a fresh [SBError], with a non-empty literal. *)
Definition SetErrorString (err_str : string) : t := Failure err_str.

End SBError.

Module FileSpec.

(** Modelled from the spec: [lldb_private::FileSpec]
    (lldb/Utility/FileSpec.h is not among the sources), a path.  The
    default-constructed specification has the empty path, and
    [GetCString] is null for it. *)
Record t : Type := mk { GetPath : string }.

Definition default : t := mk "".

(** [FileSpec(llvm::StringRef path)] *)
Definition of_path (path : string) : t := mk path.

Definition GetCString (f : t) : c_str :=
  if empty (GetPath f) then None else Some (GetPath f).

End FileSpec.

Module FileSystem.

(** The local file system reached through [FileSystem::Instance()], as the
    three queries [SBPlatform] asks of it. *)
Record t : Type := mk {
  Exists : FileSpec.t -> bool;
  GetPermissions : FileSpec.t -> Z;
  IsDirectory : FileSpec.t -> bool
}.

End FileSystem.

Module SBFileSpec.

Record t : Type := mk { ref : FileSpec.t }.

(** Modelled from the spec: [SBFileSpec::Exists] (SBFileSpec.cpp is not
    among the sources) asks whether the file "exists locally". *)
Definition Exists (fs : FileSystem.t) (f : t) : bool :=
  FileSystem.Exists fs (ref f).

End SBFileSpec.

(** ** The platform interface *)

(** What [RunShellCommand] receives through its three out-pointers and may
    overwrite. *)
Record ShellOutputs : Type := mkShellOutputs {
  status : Z;
  signo : Z;
  command_output : string
}.

(** [Args] after some [AppendArgument]s. *)
Definition Args : Type := list string.

(** Passing a [Timeout<std::ratio<1>>] where a [Timeout<std::micro>] is
    expected converts the count of seconds to microseconds. *)
Definition Timeout_micro (timeout : option Z) : option Z :=
  match timeout with
  | Some sec => Some (sec * 1000000)
  | None => None
  end.

Module Platform.

(** One entry per call of a platform primitive, with its arguments. *)
Inductive Call (ProcessLaunchInfo : Type) : Type :=
| CallConnectRemote (args : Args)
| CallGetFile (source destination : FileSpec.t)
| CallPutFile (source destination : FileSpec.t) (permissions : Z)
| CallInstall (src dst : FileSpec.t)
| CallRunShellCommand (shell command : string) (working_dir : FileSpec.t)
                      (timeout : option Z)
| CallLaunchProcess (launch_info : ProcessLaunchInfo)
| CallKillProcess (pid : Z).

(** The virtual methods of [lldb_private::Platform] that [SBPlatform]
    calls, over the state [P] of the platform object.  The class itself
    is not among the sources, so an implementation is a parameter: the
    two queries read the state, every other method returns its result
    and the state it leaves the object in. *)
Class t (ProcessLaunchInfo P : Type) : Type := {
  IsConnected : P -> bool;
  GetWorkingDirectory : P -> FileSpec.t;
  ConnectRemote : Args -> P -> Status * P;
  GetFile : FileSpec.t -> FileSpec.t -> P -> Status * P;
  PutFile : FileSpec.t -> FileSpec.t -> Z -> P -> Status * P;
  Install : FileSpec.t -> FileSpec.t -> P -> Status * P;
  RunShellCommand :
    string -> string -> FileSpec.t -> ShellOutputs -> option Z ->
    P -> (Status * ShellOutputs) * P;
  LaunchProcess :
    ProcessLaunchInfo -> P -> (Status * ProcessLaunchInfo) * P;
  KillProcess : Z -> P -> Status * P
}.

Arguments CallConnectRemote {ProcessLaunchInfo}.
Arguments CallGetFile {ProcessLaunchInfo}.
Arguments CallPutFile {ProcessLaunchInfo}.
Arguments CallInstall {ProcessLaunchInfo}.
Arguments CallRunShellCommand {ProcessLaunchInfo}.
Arguments CallLaunchProcess {ProcessLaunchInfo}.
Arguments CallKillProcess {ProcessLaunchInfo}.

End Platform.

(** ** SBPlatform *)

Module SBPlatform.

Section WithPlatform.

(** Two enumerators of lldb-enumerations.h, which is not among the
    sources. *)
Variables eFilePermissionsDirectoryDefault eFilePermissionsFileDefault : Z.

Context {ProcessLaunchInfo P : Type}
        {platform : Platform.t ProcessLaunchInfo P}.

(** What a method of [SBPlatform] can read and write: the shared pointer
    [m_opaque_sp] (null, or the state of the platform object it points
    to), the object [refs] that the method received by reference and may
    modify (the shell command of [Run], the launch information of
    [Launch]), and the history of calls made to platform primitives. *)
Record World (C : Type) : Type := mkWorld {
  m_opaque_sp : option P;
  refs : C;
  transport_log : list (Platform.Call ProcessLaunchInfo)
}.

Arguments mkWorld {C}.
Arguments m_opaque_sp {C}.
Arguments refs {C}.
Arguments transport_log {C}.

Definition GetSP {C} (w : World C) : option P := m_opaque_sp w.

Definition IsValid {C} (w : World C) : bool :=
  match m_opaque_sp w with
  | Some _ => true
  | None => false
  end.

Definition IsConnected {C} (w : World C) : bool :=
  match GetSP w with
  | Some platform_sp => Platform.IsConnected platform_sp
  | None => false
  end.

(** Calling the primitive [op] on the object behind [platform_sp]: the
    object changes state and the call joins the history. *)
Definition invoke {C A} (call : Platform.Call ProcessLaunchInfo)
    (op : P -> A * P) (platform_sp : P) (w : World C) : A * World C :=
  let (a, platform_sp') := op platform_sp in
  (a, {| m_opaque_sp := Some platform_sp';
         refs := refs w;
         transport_log := (transport_log w ++ [call])%list |}).

Definition ConnectRemote {C} (connect_options : PlatformConnectOptions)
    (w : World C) : SBError.t * World C :=
  match GetSP w, SBPlatformConnectOptions.GetURL connect_options with
  | Some platform_sp, Some url =>
      let args : Args := ([] ++ [url])%list in
      invoke (Platform.CallConnectRemote args)
             (Platform.ConnectRemote args) platform_sp w
  | _, _ => (SBError.SetErrorString "invalid platform", w)
  end.

Definition ExecuteConnected {C}
    (func : P -> World C -> Status * World C) (w : World C)
  : SBError.t * World C :=
  match GetSP w with
  | Some platform_sp =>
      if Platform.IsConnected platform_sp
      then func platform_sp w
      else (SBError.SetErrorString "not connected", w)
  | None => (SBError.SetErrorString "invalid platform", w)
  end.

Definition Get {C} (src dst : SBFileSpec.t) (w : World C)
  : SBError.t * World C :=
  match GetSP w with
  | Some platform_sp =>
      invoke (Platform.CallGetFile (SBFileSpec.ref src)
                                   (SBFileSpec.ref dst))
             (Platform.GetFile (SBFileSpec.ref src) (SBFileSpec.ref dst))
             platform_sp w
  | None => (SBError.SetErrorString "invalid platform", w)
  end.

Definition Put {C} (fs : FileSystem.t) (src dst : SBFileSpec.t)
  : World C -> SBError.t * World C :=
  ExecuteConnected (fun platform_sp w =>
    if SBFileSpec.Exists fs src then
      let permissions := FileSystem.GetPermissions fs (SBFileSpec.ref src) in
      let permissions :=
        if (permissions =? 0)%Z then
          if FileSystem.IsDirectory fs (SBFileSpec.ref src)
          then eFilePermissionsDirectoryDefault
          else eFilePermissionsFileDefault
        else permissions in
      invoke (Platform.CallPutFile (SBFileSpec.ref src)
                                   (SBFileSpec.ref dst) permissions)
             (Platform.PutFile (SBFileSpec.ref src) (SBFileSpec.ref dst)
                               permissions)
             platform_sp w
    else
      (Failure ("'src' argument doesn't exist: '"
                ++ FileSpec.GetPath (SBFileSpec.ref src) ++ "'"), w)).

Definition Install {C} (fs : FileSystem.t) (src dst : SBFileSpec.t)
  : World C -> SBError.t * World C :=
  ExecuteConnected (fun platform_sp w =>
    if SBFileSpec.Exists fs src then
      invoke (Platform.CallInstall (SBFileSpec.ref src)
                                   (SBFileSpec.ref dst))
             (Platform.Install (SBFileSpec.ref src) (SBFileSpec.ref dst))
             platform_sp w
    else
      (Failure ("'src' argument doesn't exist: '"
                ++ FileSpec.GetPath (SBFileSpec.ref src) ++ "'"), w)).

Definition Run
  : World PlatformShellCommand -> SBError.t * World PlatformShellCommand :=
  ExecuteConnected (fun platform_sp w =>
    let shell_command := refs w in
    match SBPlatformShellCommand.GetCommand shell_command with
    | None => (Failure "invalid shell command (empty)", w)
    | Some command =>
        let working_dir :=
          SBPlatformShellCommand.GetWorkingDirectory shell_command in
        let '(working_dir, shell_command) :=
          match working_dir with
          | None =>
              let working_dir :=
                FileSpec.GetCString
                  (Platform.GetWorkingDirectory platform_sp) in
              match working_dir with
              | Some _ =>
                  (working_dir,
                   SBPlatformShellCommand.SetWorkingDirectory
                     working_dir shell_command)
              | None => (working_dir, shell_command)
              end
          | Some _ => (working_dir, shell_command)
          end in
        let working_dir := FileSpec.of_path (StringRef working_dir) in
        let timeout := Timeout_micro (m_timeout shell_command) in
        let '(error, out, platform_sp') :=
          Platform.RunShellCommand
            (m_shell shell_command) command working_dir
            {| status := m_status shell_command;
               signo := m_signo shell_command;
               command_output := m_output shell_command |}
            timeout platform_sp in
        (error,
         {| m_opaque_sp := Some platform_sp';
            refs := {| m_shell := m_shell shell_command;
                       m_command := m_command shell_command;
                       m_working_dir := m_working_dir shell_command;
                       m_output := command_output out;
                       m_status := status out;
                       m_signo := signo out;
                       m_timeout := m_timeout shell_command |};
            transport_log :=
              (transport_log w
               ++ [Platform.CallRunShellCommand
                     (m_shell shell_command) command working_dir
                     timeout])%list |})
    end).

Definition Launch
  : World ProcessLaunchInfo -> SBError.t * World ProcessLaunchInfo :=
  ExecuteConnected (fun platform_sp w =>
    let info := refs w in
    let '(error, info', platform_sp') :=
      Platform.LaunchProcess info platform_sp in
    (error,
     {| m_opaque_sp := Some platform_sp';
        refs := info';
        transport_log :=
          (transport_log w ++ [Platform.CallLaunchProcess info])%list |})).

Definition Kill {C} (pid : Z) : World C -> SBError.t * World C :=
  ExecuteConnected (fun platform_sp w =>
    invoke (Platform.CallKillProcess pid)
           (Platform.KillProcess pid) platform_sp w).

End WithPlatform.

Arguments mkWorld {ProcessLaunchInfo P C}.
Arguments m_opaque_sp {ProcessLaunchInfo P C}.
Arguments refs {ProcessLaunchInfo P C}.
Arguments transport_log {ProcessLaunchInfo P C}.

End SBPlatform.

(** ** A platform to run the operations on

    A small implementation of the interface, used to evaluate the
    operations on concrete inputs: the remote end is a list of file paths,
    connecting takes exactly one argument, fetching a file works whether or
    not a session is open (as it does for a platform that copies locally),
    and a launch assigns the next process id. *)

Module Loopback.

Record state : Type := mk {
  connected : bool;
  working_directory : string;
  remote_files : list string;
  next_pid : Z
}.

Definition has_file (path : string) (s : state) : bool :=
  existsb (String.eqb path) (remote_files s).

Definition add_file (path : string) (s : state) : state :=
  {| connected := connected s;
     working_directory := working_directory s;
     remote_files := path :: remote_files s;
     next_pid := next_pid s |}.

Definition connect (args : Args) (s : state) : Status * state :=
  match args with
  | [_] => (Success,
            {| connected := true;
               working_directory := working_directory s;
               remote_files := remote_files s;
               next_pid := next_pid s |})
  | _ => (Failure "expected one argument", s)
  end.

Definition fetch (source destination : FileSpec.t) (s : state)
  : Status * state :=
  if has_file (FileSpec.GetPath source) s
  then (Success, s)
  else (Failure "no such file", s).

Definition run (shell command : string) (working_dir : FileSpec.t)
    (outs : ShellOutputs) (timeout : option Z) (s : state)
  : (Status * ShellOutputs) * state :=
  ((Success,
    {| status := 0; signo := 0;
       command_output := FileSpec.GetPath working_dir ++ "$ " ++ command |}),
   s).

Definition launch (pid : Z) (s : state) : (Status * Z) * state :=
  ((Success, next_pid s),
   {| connected := connected s;
      working_directory := working_directory s;
      remote_files := remote_files s;
      next_pid := next_pid s + 1 |}).

#[global] Instance platform : Platform.t Z state := {|
  Platform.IsConnected := connected;
  Platform.GetWorkingDirectory := fun s => FileSpec.mk (working_directory s);
  Platform.ConnectRemote := connect;
  Platform.GetFile := fetch;
  Platform.PutFile := fun source destination permissions s =>
    (Success, add_file (FileSpec.GetPath destination) s);
  Platform.Install := fun src dst s =>
    (Success, add_file (FileSpec.GetPath dst) s);
  Platform.RunShellCommand := run;
  Platform.LaunchProcess := launch;
  Platform.KillProcess := fun pid s => (Success, s)
|}.

Definition offline : state :=
  {| connected := false;
     working_directory := "/home/user";
     remote_files := ["/etc/hosts"];
     next_pid := 100 |}.

Definition online : state :=
  {| connected := true;
     working_directory := "/home/user";
     remote_files := ["/etc/hosts"];
     next_pid := 100 |}.

(** Connected, with no working directory. *)
Definition no_directory : state :=
  {| connected := true;
     working_directory := "";
     remote_files := ["/etc/hosts"];
     next_pid := 100 |}.

(** A local file system with one regular file and one directory, both
    reporting no permission bits, and one file reporting [0644]. *)
Definition local_fs : FileSystem.t :=
  {| FileSystem.Exists := fun f =>
       existsb (String.eqb (FileSpec.GetPath f)) ["/tmp/a.out"; "/tmp/dir"; "/tmp/notes"];
     FileSystem.GetPermissions := fun f =>
       if String.eqb (FileSpec.GetPath f) "/tmp/notes" then 420 else 0;
     FileSystem.IsDirectory := fun f =>
       String.eqb (FileSpec.GetPath f) "/tmp/dir" |}.

Definition file (path : string) : SBFileSpec.t :=
  SBFileSpec.mk (FileSpec.mk path).

(** [eFilePermissionsUserRWX] and [eFilePermissionsUserRW]. *)
Definition directory_default : Z := 448.
Definition file_default : Z := 384.

Definition hosts : SBFileSpec.t := file "/etc/hosts".
Definition absent : SBFileSpec.t := file "/tmp/none".
Definition directory : SBFileSpec.t := file "/tmp/dir".
Definition ls : PlatformShellCommand :=
  SBPlatformShellCommand.new1 (Some "ls").
Definition no_command : PlatformShellCommand :=
  SBPlatformShellCommand.new None (Some "ls").
Definition remote : PlatformConnectOptions :=
  SBPlatformConnectOptions.new (Some "connect://host:1234").

End Loopback.

(** ** The rest of SBPlatform

    The methods of [SBPlatform] that do not go through [ExecuteConnected]:
    they need a valid platform and nothing more. *)

Module VersionTuple.

(** What [SBPlatform] uses of [llvm::VersionTuple], which is not among the
    sources: the default-constructed tuple, [empty()], [getMajor()], and the
    optional [getMinor()] and [getSubminor()]. *)
Class ops (T : Type) : Type := {
  default : T;
  empty : T -> bool;
  getMajor : T -> Z;
  getMinor : T -> option Z;
  getSubminor : T -> option Z
}.

End VersionTuple.

(** [llvm::Optional<T>::getValueOr] *)
Definition getValueOr {A} (o : option A) (value : A) : A :=
  match o with
  | Some a => a
  | None => value
  end.

Module PlatformMore.

(** More virtual methods of [lldb_private::Platform], over the same state
    [P] of the platform object.  [GetFilePermissions] receives the current
    value of its out-parameter and returns the value it leaves there. *)
Class t (VersionTuple P : Type) : Type := {
  DisconnectRemote : P -> Status * P;
  SetWorkingDirectory : FileSpec.t -> P -> bool * P;
  MakeDirectory : FileSpec.t -> Z -> P -> Status * P;
  GetFilePermissions : FileSpec.t -> Z -> P -> (Status * Z) * P;
  SetFilePermissions : FileSpec.t -> Z -> P -> Status * P;
  GetOSVersion : P -> VersionTuple * P
}.

End PlatformMore.

Module SBPlatformMore.

Section WithPlatform.

Context {ProcessLaunchInfo VersionTuple P : Type}
        {version : VersionTuple.ops VersionTuple}
        {platform : Platform.t ProcessLaunchInfo P}
        {more : PlatformMore.t VersionTuple P}.

Local Abbreviation World := (@SBPlatform.World ProcessLaunchInfo P).

(** [SBPlatform::Clear]: [m_opaque_sp.reset()]. *)
Definition Clear {C} (w : World C) : World C :=
  {| SBPlatform.m_opaque_sp := None;
     SBPlatform.refs := SBPlatform.refs w;
     SBPlatform.transport_log := SBPlatform.transport_log w |}.

(** [SBPlatform::SetSP] *)
Definition SetSP {C} (platform_sp : option P) (w : World C) : World C :=
  {| SBPlatform.m_opaque_sp := platform_sp;
     SBPlatform.refs := SBPlatform.refs w;
     SBPlatform.transport_log := SBPlatform.transport_log w |}.

(** [SBPlatform::GetWorkingDirectory] *)
Definition GetWorkingDirectory (m_opaque_sp : option P) : c_str :=
  match m_opaque_sp with
  | Some platform_sp =>
      FileSpec.GetCString (Platform.GetWorkingDirectory platform_sp)
  | None => None
  end.

(** The methods below work on the shared pointer alone: they take
    [m_opaque_sp] and return their result with the pointer, which points at
    the platform object in the state the method left it in. *)

Definition SetWorkingDirectory (path : c_str) (m_opaque_sp : option P)
  : bool * option P :=
  match m_opaque_sp with
  | Some platform_sp =>
      let (_, platform_sp') :=
        match path with
        | Some s =>
            PlatformMore.SetWorkingDirectory (FileSpec.of_path s) platform_sp
        | None =>
            PlatformMore.SetWorkingDirectory FileSpec.default platform_sp
        end in
      (true, Some platform_sp')
  | None => (false, None)
  end.

Definition DisconnectRemote (m_opaque_sp : option P) : option P :=
  match m_opaque_sp with
  | Some platform_sp =>
      Some (snd (PlatformMore.DisconnectRemote platform_sp))
  | None => None
  end.

(** The version that the three getters below start from and overwrite when
    the platform is valid. *)
Definition os_version (m_opaque_sp : option P) : VersionTuple * option P :=
  match m_opaque_sp with
  | Some platform_sp =>
      let (version, platform_sp') := PlatformMore.GetOSVersion platform_sp in
      (version, Some platform_sp')
  | None => (VersionTuple.default, None)
  end.

Definition GetOSMajorVersion (m_opaque_sp : option P) : Z * option P :=
  let (version, m_opaque_sp') := os_version m_opaque_sp in
  (if VersionTuple.empty version
   then UINT32_MAX
   else VersionTuple.getMajor version,
   m_opaque_sp').

Definition GetOSMinorVersion (m_opaque_sp : option P) : Z * option P :=
  let (version, m_opaque_sp') := os_version m_opaque_sp in
  (getValueOr (VersionTuple.getMinor version) UINT32_MAX, m_opaque_sp').

Definition GetOSUpdateVersion (m_opaque_sp : option P) : Z * option P :=
  let (version, m_opaque_sp') := os_version m_opaque_sp in
  (getValueOr (VersionTuple.getSubminor version) UINT32_MAX, m_opaque_sp').

Definition MakeDirectory (path : c_str) (file_permissions : Z)
    (m_opaque_sp : option P) : SBError.t * option P :=
  match m_opaque_sp with
  | Some platform_sp =>
      let (error, platform_sp') :=
        PlatformMore.MakeDirectory (FileSpec.of_path (StringRef path))
                                   file_permissions platform_sp in
      (error, Some platform_sp')
  | None => (SBError.SetErrorString "invalid platform", None)
  end.

Definition GetFilePermissions (path : c_str) (m_opaque_sp : option P)
  : Z * option P :=
  match m_opaque_sp with
  | Some platform_sp =>
      let file_permissions := 0 in
      let '(_, file_permissions, platform_sp') :=
        PlatformMore.GetFilePermissions (FileSpec.of_path (StringRef path))
                                        file_permissions platform_sp in
      (file_permissions, Some platform_sp')
  | None => (0, None)
  end.

Definition SetFilePermissions (path : c_str) (file_permissions : Z)
    (m_opaque_sp : option P) : SBError.t * option P :=
  match m_opaque_sp with
  | Some platform_sp =>
      let (error, platform_sp') :=
        PlatformMore.SetFilePermissions (FileSpec.of_path (StringRef path))
                                        file_permissions platform_sp in
      (error, Some platform_sp')
  | None => (SBError.SetErrorString "invalid platform", None)
  end.

End WithPlatform.

End SBPlatformMore.

(** The rest of the interface on the loopback platform: the operating
    system is version 11.2, with no update number; a lookup of permissions
    fails, leaving its out-parameter alone, for a file the remote end does
    not have. *)

Module LoopbackMore.

Record version : Type := mkVersion {
  major : Z;
  minor : option Z;
  subminor : option Z
}.

#[global] Instance version_ops : VersionTuple.ops version := {|
  VersionTuple.default := mkVersion 0 None None;
  VersionTuple.empty := fun v =>
    (major v =? 0)%Z && (getValueOr (minor v) 0 =? 0)%Z
    && (getValueOr (subminor v) 0 =? 0)%Z;
  VersionTuple.getMajor := major;
  VersionTuple.getMinor := minor;
  VersionTuple.getSubminor := subminor
|}.

Definition disconnect (s : Loopback.state) : Status * Loopback.state :=
  (Success,
   {| Loopback.connected := false;
      Loopback.working_directory := Loopback.working_directory s;
      Loopback.remote_files := Loopback.remote_files s;
      Loopback.next_pid := Loopback.next_pid s |}).

Definition chdir (f : FileSpec.t) (s : Loopback.state)
  : bool * Loopback.state :=
  (true,
   {| Loopback.connected := Loopback.connected s;
      Loopback.working_directory := FileSpec.GetPath f;
      Loopback.remote_files := Loopback.remote_files s;
      Loopback.next_pid := Loopback.next_pid s |}).

Definition permissions (f : FileSpec.t) (file_permissions : Z)
    (s : Loopback.state) : (Status * Z) * Loopback.state :=
  if Loopback.has_file (FileSpec.GetPath f) s
  then ((Success, 420), s)
  else ((Failure "no such file", file_permissions), s).

Definition chmod (f : FileSpec.t) (file_permissions : Z)
    (s : Loopback.state) : Status * Loopback.state :=
  if Loopback.has_file (FileSpec.GetPath f) s
  then (Success, s)
  else (Failure "no such file", s).

#[global] Instance more : PlatformMore.t version Loopback.state := {|
  PlatformMore.DisconnectRemote := disconnect;
  PlatformMore.SetWorkingDirectory := chdir;
  PlatformMore.MakeDirectory := fun f file_permissions s =>
    (Success, Loopback.add_file (FileSpec.GetPath f) s);
  PlatformMore.GetFilePermissions := permissions;
  PlatformMore.SetFilePermissions := chmod;
  PlatformMore.GetOSVersion := fun s => (mkVersion 11 (Some 2) None, s)
|}.

(** A shell command built with an interpreter, a working directory, a
    timeout, and results left by an earlier run. *)
Definition rerun : PlatformShellCommand :=
  {| m_shell := "/bin/sh";
     m_command := "make";
     m_working_dir := "/src";
     m_output := "old output";
     m_status := 2;
     m_signo := 0;
     m_timeout := Some 30 |}.

End LoopbackMore.

(** * Properties *)

(** ** Connect options *)

Import SBPlatformConnectOptions.

Lemma GetURL_null_iff (o : PlatformConnectOptions) :
  GetURL o = None <-> m_url o = "".
Proof.
  unfold GetURL. destruct (m_url o); simpl; split; congruence.
Qed.

Lemma GetURL_chars (o : PlatformConnectOptions) :
  m_url o <> "" -> GetURL o = Some (m_url o).
Proof.
  unfold GetURL. destruct (m_url o); simpl; congruence.
Qed.

(** C7. Reading a connect-option field back after setting it returns the
    value last set: a null pointer or an empty string reads back as null,
    any other string reads back as itself, for the URL and for the local
    cache directory alike, whatever was set before; enabling and disabling
    rsync read back as enabled and disabled. *)
Theorem connect_options_set_get
    (o : PlatformConnectOptions) (before : c_str) (s : string) :
  GetURL (SetURL None (SetURL before o)) = None /\
  GetURL (SetURL (Some "") (SetURL before o)) = None /\
  GetURL (SetURL (Some s) (SetURL before o))
    = (if empty s then None else Some s) /\
  GetLocalCacheDirectory
    (SetLocalCacheDirectory None (SetLocalCacheDirectory before o)) = None /\
  GetLocalCacheDirectory
    (SetLocalCacheDirectory (Some "") (SetLocalCacheDirectory before o))
    = None /\
  GetLocalCacheDirectory
    (SetLocalCacheDirectory (Some s) (SetLocalCacheDirectory before o))
    = (if empty s then None else Some s) /\
  (forall options remote_path_prefix omit_hostname_from_remote_path,
     GetRsyncEnabled
       (EnableRsync options remote_path_prefix
                    omit_hostname_from_remote_path o) = true) /\
  GetRsyncEnabled (DisableRsync o) = false.
Proof.
  repeat split; try reflexivity; destruct s; reflexivity.
Qed.

(** ** Shell commands *)

Import SBPlatformShellCommand.

(** C8. [Clear] empties the output and zeroes status and signal, keeps
    shell, command, working directory and timeout, and clearing any number
    of times more gives what clearing once gives. *)
Theorem Clear_resets_results_only (c : PlatformShellCommand) (n : nat) :
  m_output (Clear c) = "" /\
  m_status (Clear c) = 0 /\
  m_signo (Clear c) = 0 /\
  m_shell (Clear c) = m_shell c /\
  m_command (Clear c) = m_command c /\
  m_working_dir (Clear c) = m_working_dir c /\
  m_timeout (Clear c) = m_timeout c /\
  Nat.iter (S n) Clear c = Clear c.
Proof.
  repeat split.
  induction n as [|n IH].
  - reflexivity.
  - change (Nat.iter (S (S n)) Clear c) with (Clear (Nat.iter (S n) Clear c)).
    rewrite IH. reflexivity.
Qed.

(** C9. Setting the timeout to [UINT32_MAX] stores no timeout and reads
    back as [UINT32_MAX]; any other 32-bit unsigned number of seconds
    reads back as itself. *)
Theorem timeout_seconds_round_trip (c : PlatformShellCommand) (sec : Z) :
  0 <= sec <= UINT32_MAX ->
  GetTimeoutSeconds (SetTimeoutSeconds sec c) = sec /\
  m_timeout (SetTimeoutSeconds UINT32_MAX c) = None /\
  (sec <> UINT32_MAX -> m_timeout (SetTimeoutSeconds sec c) = Some sec).
Proof.
  unfold GetTimeoutSeconds, SetTimeoutSeconds, UINT32_MAX. simpl m_timeout.
  intros Hsec. repeat split.
  - destruct (Z.eqb_spec sec 4294967295) as [->|Hne].
    + reflexivity.
    + apply Z.mod_small. lia.
  - intros Hne. apply Z.eqb_neq in Hne. rewrite Hne. reflexivity.
Qed.

Lemma timeout_seconds_round_trip_witness :
  GetTimeoutSeconds (SetTimeoutSeconds 30 (new1 (Some "ls"))) = 30 /\
  m_timeout (SetTimeoutSeconds UINT32_MAX (new1 (Some "ls"))) = None /\
  (30 <> UINT32_MAX ->
   m_timeout (SetTimeoutSeconds 30 (new1 (Some "ls"))) = Some 30).
Proof.
  apply (timeout_seconds_round_trip (new1 (Some "ls")) 30).
  unfold UINT32_MAX. lia.
Defined.

(** C10. The two-argument constructor keeps the command only next to a
    non-empty interpreter: with a null or empty interpreter the command
    reads back as null whatever it was, a non-empty command included; with
    a non-empty interpreter a non-empty command reads back as itself. *)
Theorem constructor_drops_command_without_shell
    (shell_command : c_str) (c : Ascii.ascii) (s : string) :
  GetCommand (new None shell_command) = None /\
  GetCommand (new (Some "") shell_command) = None /\
  GetCommand (new None (Some (String c s))) = None /\
  GetCommand (new (Some "") (Some (String c s))) = None /\
  (forall shell_interpreter,
     shell_interpreter <> "" ->
     GetShell (new (Some shell_interpreter) shell_command)
       = Some shell_interpreter /\
     GetCommand (new (Some shell_interpreter) (Some (String c s)))
       = Some (String c s)).
Proof.
  repeat split; try reflexivity;
    destruct shell_interpreter; try congruence; reflexivity.
Qed.

Lemma constructor_drops_command_without_shell_witness :
  GetShell (new (Some "/bin/sh") (Some "ls -l")) = Some "/bin/sh" /\
  GetCommand (new (Some "/bin/sh") (Some "ls -l")) = Some "ls -l".
Proof.
  apply (constructor_drops_command_without_shell
           (Some "ls -l") "l"%char "s -l").
  discriminate.
Defined.

(** ** The connection gate *)

Section Operations.

Context {ProcessLaunchInfo P : Type}
        {platform : Platform.t ProcessLaunchInfo P}.

Local Abbreviation Log := (list (Platform.Call ProcessLaunchInfo)).
Local Abbreviation World := (@SBPlatform.World ProcessLaunchInfo P).
Local Abbreviation mkWorld := (@SBPlatform.mkWorld ProcessLaunchInfo P).

Lemma ExecuteConnected_invalid {C}
    (func : P -> World C -> Status * World C) (c : C) (log : Log) :
  SBPlatform.ExecuteConnected func (mkWorld None c log)
  = (Failure "invalid platform", mkWorld None c log).
Proof. reflexivity. Qed.

Lemma ExecuteConnected_not_connected {C}
    (func : P -> World C -> Status * World C) (p : P) (c : C) (log : Log) :
  Platform.IsConnected p = false ->
  SBPlatform.ExecuteConnected func (mkWorld (Some p) c log)
  = (Failure "not connected", mkWorld (Some p) c log).
Proof.
  intros Hoff. unfold SBPlatform.ExecuteConnected. simpl.
  rewrite Hoff. reflexivity.
Qed.

Lemma ExecuteConnected_connected {C}
    (func : P -> World C -> Status * World C) (p : P) (c : C) (log : Log) :
  Platform.IsConnected p = true ->
  SBPlatform.ExecuteConnected func (mkWorld (Some p) c log)
  = func p (mkWorld (Some p) c log).
Proof.
  intros Hon. unfold SBPlatform.ExecuteConnected. simpl.
  rewrite Hon. reflexivity.
Qed.

Lemma invoke_eq {C A} (call : Platform.Call ProcessLaunchInfo)
    (op : P -> A * P) (p : P) (c : C) (log : Log) :
  SBPlatform.invoke call op p (mkWorld (Some p) c log)
  = (fst (op p), mkWorld (Some (snd (op p))) c (log ++ [call])%list).
Proof.
  unfold SBPlatform.invoke. destruct (op p). reflexivity.
Qed.

(** [Get] does not go through [ExecuteConnected]: on a valid platform it
    calls [GetFile] whatever [IsConnected] says. *)
Lemma Get_valid {C} (src dst : SBFileSpec.t) (p : P) (c : C) (log : Log) :
  let fetch := Platform.GetFile (SBFileSpec.ref src) (SBFileSpec.ref dst) p in
  SBPlatform.Get src dst (mkWorld (Some p) c log)
  = (fst fetch,
     mkWorld (Some (snd fetch)) c
       (log ++ [Platform.CallGetFile (SBFileSpec.ref src)
                                     (SBFileSpec.ref dst)])%list).
Proof.
  unfold SBPlatform.Get. simpl. apply invoke_eq.
Qed.

(** C1, as the code has it.  On an invalid platform [Run], [Get], [Put],
    [Install], [Launch] and [Kill] all fail with "invalid platform" and
    change nothing.  On a valid platform that is not connected [Run],
    [Put], [Install], [Launch] and [Kill] fail with "not connected" and
    change nothing.  On every valid platform, connected or not, [Get]
    calls the platform's [GetFile] once and returns its result. *)
Theorem operations_unless_connected
    (eDirectoryDefault eFileDefault : Z) (fs : FileSystem.t)
    (src dst : SBFileSpec.t) (pid : Z)
    (shell_command : PlatformShellCommand) (launch_info : ProcessLaunchInfo)
    (C : Type) (c : C) (log : Log) :
  (let invalid := Failure "invalid platform" in
   SBPlatform.Run (mkWorld None shell_command log)
     = (invalid, mkWorld None shell_command log) /\
   SBPlatform.Get src dst (mkWorld None c log)
     = (invalid, mkWorld None c log) /\
   SBPlatform.Put eDirectoryDefault eFileDefault fs src dst
       (mkWorld None c log)
     = (invalid, mkWorld None c log) /\
   SBPlatform.Install fs src dst (mkWorld None c log)
     = (invalid, mkWorld None c log) /\
   SBPlatform.Launch (mkWorld None launch_info log)
     = (invalid, mkWorld None launch_info log) /\
   SBPlatform.Kill pid (mkWorld None c log)
     = (invalid, mkWorld None c log))
  /\
  (forall p : P,
     Platform.IsConnected p = false ->
     let not_connected := Failure "not connected" in
     SBPlatform.Run (mkWorld (Some p) shell_command log)
       = (not_connected, mkWorld (Some p) shell_command log) /\
     SBPlatform.Put eDirectoryDefault eFileDefault fs src dst
         (mkWorld (Some p) c log)
       = (not_connected, mkWorld (Some p) c log) /\
     SBPlatform.Install fs src dst (mkWorld (Some p) c log)
       = (not_connected, mkWorld (Some p) c log) /\
     SBPlatform.Launch (mkWorld (Some p) launch_info log)
       = (not_connected, mkWorld (Some p) launch_info log) /\
     SBPlatform.Kill pid (mkWorld (Some p) c log)
       = (not_connected, mkWorld (Some p) c log))
  /\
  (forall p : P,
     let fetch :=
       Platform.GetFile (SBFileSpec.ref src) (SBFileSpec.ref dst) p in
     SBPlatform.Get src dst (mkWorld (Some p) c log)
     = (fst fetch,
        mkWorld (Some (snd fetch)) c
          (log ++ [Platform.CallGetFile (SBFileSpec.ref src)
                                        (SBFileSpec.ref dst)])%list)).
Proof.
  split; [|split].
  - cbv zeta. repeat split; apply ExecuteConnected_invalid.
  - intros p Hoff. cbv zeta.
    repeat split; apply ExecuteConnected_not_connected; exact Hoff.
  - intros p. apply Get_valid.
Qed.

(** ** File transfer *)

(** C2. On a valid connected platform, [Put] and [Install] of a source that
    does not exist locally fail with "'src' argument doesn't exist:
    '<path>'" and leave the platform object and the history of platform
    calls as they were; [Get] calls the platform's [GetFile] once and
    returns its result, and asks nothing of the local file system. *)
Theorem missing_source_never_reaches_platform
    (eDirectoryDefault eFileDefault : Z) (fs : FileSystem.t)
    (src dst : SBFileSpec.t) (p : P) (C : Type) (c : C) (log : Log) :
  Platform.IsConnected p = true ->
  (SBFileSpec.Exists fs src = false ->
   let error :=
     Failure ("'src' argument doesn't exist: '"
              ++ FileSpec.GetPath (SBFileSpec.ref src) ++ "'") in
   SBPlatform.Put eDirectoryDefault eFileDefault fs src dst
       (mkWorld (Some p) c log)
     = (error, mkWorld (Some p) c log) /\
   SBPlatform.Install fs src dst (mkWorld (Some p) c log)
     = (error, mkWorld (Some p) c log))
  /\
  (let fetch :=
     Platform.GetFile (SBFileSpec.ref src) (SBFileSpec.ref dst) p in
   SBPlatform.Get src dst (mkWorld (Some p) c log)
   = (fst fetch,
      mkWorld (Some (snd fetch)) c
        (log ++ [Platform.CallGetFile (SBFileSpec.ref src)
                                      (SBFileSpec.ref dst)])%list)).
Proof.
  intros Hon. split.
  - intros Hmissing. cbv zeta.
    unfold SBPlatform.Put, SBPlatform.Install.
    rewrite !ExecuteConnected_connected by exact Hon.
    rewrite Hmissing. split; reflexivity.
  - apply Get_valid.
Qed.

(** C3. On a valid connected platform, [Put] of a source that exists
    locally calls the platform's [PutFile] once, with a permission value
    that is the one read from the local file system when that is not zero,
    the directory default when it is zero and the source is a directory,
    and the file default when it is zero and the source is not a
    directory; [Put] returns what [PutFile] returns. *)
Theorem Put_resolves_permissions
    (eDirectoryDefault eFileDefault : Z) (fs : FileSystem.t)
    (src dst : SBFileSpec.t) (p : P) (C : Type) (c : C) (log : Log) :
  Platform.IsConnected p = true ->
  SBFileSpec.Exists fs src = true ->
  let read := FileSystem.GetPermissions fs (SBFileSpec.ref src) in
  let is_directory := FileSystem.IsDirectory fs (SBFileSpec.ref src) in
  exists permissions : Z,
    (read <> 0 -> permissions = read) /\
    (read = 0 -> is_directory = true ->
     permissions = eDirectoryDefault) /\
    (read = 0 -> is_directory = false -> permissions = eFileDefault) /\
    let upload :=
      Platform.PutFile (SBFileSpec.ref src) (SBFileSpec.ref dst)
                       permissions p in
    SBPlatform.Put eDirectoryDefault eFileDefault fs src dst
        (mkWorld (Some p) c log)
    = (fst upload,
       mkWorld (Some (snd upload)) c
         (log ++ [Platform.CallPutFile (SBFileSpec.ref src)
                                       (SBFileSpec.ref dst)
                                       permissions])%list).
Proof.
  intros Hon Hexists read is_directory.
  unfold SBPlatform.Put.
  rewrite ExecuteConnected_connected by exact Hon.
  rewrite Hexists. fold read is_directory.
  destruct (Z.eqb_spec read 0) as [Hzero|Hread].
  - destruct is_directory eqn:Hdir.
    + exists eDirectoryDefault. repeat split; try congruence.
      apply invoke_eq.
    + exists eFileDefault. repeat split; try congruence.
      apply invoke_eq.
  - exists read. repeat split; try congruence.
    apply invoke_eq.
Qed.

(** ** Connecting *)

(** C4. [ConnectRemote] fails, without calling the platform, when the
    platform is invalid and when the options have no URL.  On a valid
    platform and options with a URL it calls the platform's
    [ConnectRemote] exactly once, with the URL as the only argument, and
    returns the status of that call as it is. *)
Theorem ConnectRemote_forwards_url
    (connect_options : PlatformConnectOptions)
    (C : Type) (c : C) (log : Log) :
  SBPlatform.ConnectRemote connect_options (mkWorld None c log)
    = (Failure "invalid platform", mkWorld None c log)
  /\
  (forall sp : option P,
     m_url connect_options = "" ->
     SBPlatform.ConnectRemote connect_options (mkWorld sp c log)
     = (Failure "invalid platform", mkWorld sp c log))
  /\
  (forall p : P,
     m_url connect_options <> "" ->
     let url := m_url connect_options in
     let connect := Platform.ConnectRemote [url] p in
     SBPlatform.ConnectRemote connect_options (mkWorld (Some p) c log)
     = (fst connect,
        mkWorld (Some (snd connect)) c
          (log ++ [Platform.CallConnectRemote [url]])%list)).
Proof.
  repeat split.
  - intros sp Hurl. unfold SBPlatform.ConnectRemote.
    rewrite (proj2 (GetURL_null_iff connect_options) Hurl).
    destruct sp; reflexivity.
  - intros p Hurl. cbv zeta. unfold SBPlatform.ConnectRemote.
    rewrite (GetURL_chars connect_options Hurl). simpl. apply invoke_eq.
Qed.

(** ** Running a shell command *)

Lemma GetCString_chars (f : FileSpec.t) (d : string) :
  FileSpec.GetCString f = Some d -> d = FileSpec.GetPath f /\ empty d = false.
Proof.
  unfold FileSpec.GetCString.
  destruct (empty (FileSpec.GetPath f)) eqn:Hpath; intros Hd.
  - discriminate.
  - injection Hd as <-. split; [reflexivity | exact Hpath].
Qed.

(** C6. On a valid connected platform, [Run] of a shell command with no
    command fails with "invalid shell command (empty)"; the platform's
    [RunShellCommand] is not called, and the platform object, the shell
    command and the history of platform calls stay as they were. *)
Theorem Run_rejects_empty_command
    (p : P) (shell_command : PlatformShellCommand) (log : Log) :
  Platform.IsConnected p = true ->
  SBPlatformShellCommand.GetCommand shell_command = None ->
  SBPlatform.Run (mkWorld (Some p) shell_command log)
  = (Failure "invalid shell command (empty)",
     mkWorld (Some p) shell_command log).
Proof.
  intros Hon Hcommand. unfold SBPlatform.Run.
  rewrite ExecuteConnected_connected by exact Hon.
  simpl. rewrite Hcommand. reflexivity.
Qed.

(** C5, as the code has it.  On a valid connected platform, [Run] of a
    shell command that has a command and no working directory calls the
    platform's [RunShellCommand] once and leaves interpreter, command and
    timeout untouched.  When the platform has a current working directory,
    [Run] stores it in the shell command before the call, where the caller
    reads it after the call, and the call is made with that directory.
    When the platform has none, the shell command's working directory
    stays null and the call is made with the empty path. *)
Theorem Run_fills_working_directory
    (p : P) (shell_command : PlatformShellCommand) (command : string)
    (log : Log) :
  Platform.IsConnected p = true ->
  SBPlatformShellCommand.GetCommand shell_command = Some command ->
  SBPlatformShellCommand.GetWorkingDirectory shell_command = None ->
  let cwd := FileSpec.GetCString (Platform.GetWorkingDirectory p) in
  let after := snd (SBPlatform.Run (mkWorld (Some p) shell_command log)) in
  (forall d : string,
     cwd = Some d ->
     SBPlatformShellCommand.GetWorkingDirectory (SBPlatform.refs after)
       = Some d /\
     m_working_dir (SBPlatform.refs after) = d /\
     SBPlatform.transport_log after
     = (log ++ [Platform.CallRunShellCommand
                  (m_shell shell_command) command (FileSpec.of_path d)
                  (Timeout_micro (m_timeout shell_command))])%list)
  /\
  (cwd = None ->
   SBPlatformShellCommand.GetWorkingDirectory (SBPlatform.refs after)
     = None /\
   m_working_dir (SBPlatform.refs after) = m_working_dir shell_command /\
   SBPlatform.transport_log after
   = (log ++ [Platform.CallRunShellCommand
                (m_shell shell_command) command (FileSpec.of_path "")
                (Timeout_micro (m_timeout shell_command))])%list)
  /\
  m_shell (SBPlatform.refs after) = m_shell shell_command /\
  m_command (SBPlatform.refs after) = m_command shell_command /\
  m_timeout (SBPlatform.refs after) = m_timeout shell_command.
Proof.
  intros Hon Hcommand Hunset cwd after. subst after.
  unfold SBPlatform.Run.
  rewrite ExecuteConnected_connected by exact Hon.
  simpl. rewrite Hcommand, Hunset. fold cwd.
  destruct cwd as [d|] eqn:Hcwd.
  - destruct (GetCString_chars _ _ Hcwd) as [_ Hd].
    match goal with
    | |- context [Platform.RunShellCommand ?a ?b ?c ?d ?e ?f] =>
        destruct (Platform.RunShellCommand a b c d e f) as [[error out] p']
    end.
    destruct d as [|a d]; [discriminate Hd|].
    simpl. split; [|split; [discriminate | repeat split]].
    intros d' Hd'. injection Hd' as <-. repeat split.
  - match goal with
    | |- context [Platform.RunShellCommand ?a ?b ?c ?d ?e ?f] =>
        destruct (Platform.RunShellCommand a b c d e f) as [[error out] p']
    end.
    simpl. split; [discriminate|]. split; [|repeat split].
    intros _. repeat split. exact Hunset.
Qed.

End Operations.

(** ** The operations on a concrete platform *)

Section OnLoopback.

Import Loopback.

Local Abbreviation mkWorld := (@SBPlatform.mkWorld Z Loopback.state).

(** C1, as stated, at a valid platform that is not connected: [Get] does
    not fail with "not connected", it fetches the file and succeeds. *)
Lemma Get_when_not_connected :
  let w := mkWorld (Some offline) tt [] in
  SBPlatform.IsValid w = true /\
  SBPlatform.IsConnected w = false /\
  fst (SBPlatform.Get hosts (file "/tmp/hosts") w) = Success /\
  fst (SBPlatform.Get hosts (file "/tmp/hosts") w)
    <> Failure "not connected".
Proof.
  cbv zeta. repeat split. vm_compute. discriminate.
Qed.

Lemma operations_unless_connected_witness :
  Platform.IsConnected offline = false /\
  SBPlatform.Run (mkWorld (Some offline) ls [])
    = (Failure "not connected", mkWorld (Some offline) ls []) /\
  SBPlatform.Put directory_default file_default local_fs
      hosts (file "/tmp/hosts") (mkWorld (Some offline) tt [])
    = (Failure "not connected", mkWorld (Some offline) tt []) /\
  SBPlatform.Install local_fs hosts (file "/tmp/hosts")
      (mkWorld (Some offline) tt [])
    = (Failure "not connected", mkWorld (Some offline) tt []) /\
  SBPlatform.Launch (mkWorld (Some offline) 0 [])
    = (Failure "not connected", mkWorld (Some offline) 0 []) /\
  SBPlatform.Kill 100 (mkWorld (Some offline) tt [])
    = (Failure "not connected", mkWorld (Some offline) tt []) /\
  SBPlatform.Get hosts (file "/tmp/hosts") (mkWorld (Some offline) tt [])
    = (Success,
       mkWorld (Some offline) tt
         [Platform.CallGetFile (FileSpec.mk "/etc/hosts")
                               (FileSpec.mk "/tmp/hosts")]).
Proof.
  destruct (operations_unless_connected
              directory_default file_default local_fs
              hosts (file "/tmp/hosts") 100 ls 0 unit tt [])
    as (_ & Hrefused & Hget).
  destruct (Hrefused offline eq_refl)
    as (Hrun & Hput & Hinstall & Hlaunch & Hkill).
  split; [reflexivity|].
  split; [exact Hrun|]. split; [exact Hput|]. split; [exact Hinstall|].
  split; [exact Hlaunch|]. split; [exact Hkill|].
  exact (Hget offline).
Defined.

Lemma missing_source_never_reaches_platform_witness :
  Platform.IsConnected online = true /\
  SBFileSpec.Exists local_fs absent = false /\
  SBPlatform.Put directory_default file_default local_fs
      absent (file "/srv/none") (mkWorld (Some online) tt [])
    = (Failure "'src' argument doesn't exist: '/tmp/none'",
       mkWorld (Some online) tt []) /\
  SBPlatform.Install local_fs absent (file "/srv/none")
      (mkWorld (Some online) tt [])
    = (Failure "'src' argument doesn't exist: '/tmp/none'",
       mkWorld (Some online) tt []).
Proof.
  split; [reflexivity|]. split; [reflexivity|].
  exact (proj1 (missing_source_never_reaches_platform
                  directory_default file_default local_fs
                  absent (file "/srv/none") online unit tt [] eq_refl)
               eq_refl).
Defined.

Lemma Put_resolves_permissions_witness :
  Platform.IsConnected online = true /\
  SBFileSpec.Exists local_fs directory = true /\
  exists permissions : Z,
    (0 <> 0 -> permissions = 0) /\
    (0 = 0 -> true = true -> permissions = directory_default) /\
    (0 = 0 -> true = false -> permissions = file_default) /\
    SBPlatform.Put directory_default file_default local_fs
        directory (file "/srv/dir") (mkWorld (Some online) tt [])
    = (Success,
       mkWorld (Some (add_file "/srv/dir" online)) tt
         [Platform.CallPutFile (FileSpec.mk "/tmp/dir")
                               (FileSpec.mk "/srv/dir") permissions]).
Proof.
  split; [reflexivity|]. split; [reflexivity|].
  exact (Put_resolves_permissions
           directory_default file_default local_fs
           directory (file "/srv/dir") online unit tt [] eq_refl eq_refl).
Defined.

Lemma ConnectRemote_forwards_url_witness :
  m_url remote <> "" /\
  SBPlatform.ConnectRemote remote (mkWorld (Some offline) tt [])
  = (Success,
     mkWorld (Some online) tt
       [Platform.CallConnectRemote ["connect://host:1234"]]).
Proof.
  assert (Hurl : m_url remote <> "") by discriminate.
  split; [exact Hurl|].
  exact (proj2 (proj2 (ConnectRemote_forwards_url remote unit tt []))
               offline Hurl).
Defined.

Lemma Run_rejects_empty_command_witness :
  Platform.IsConnected online = true /\
  SBPlatformShellCommand.GetCommand no_command = None /\
  SBPlatform.Run (mkWorld (Some online) no_command [])
  = (Failure "invalid shell command (empty)",
     mkWorld (Some online) no_command []).
Proof.
  split; [reflexivity|]. split; [reflexivity|].
  exact (Run_rejects_empty_command online no_command [] eq_refl eq_refl).
Defined.

Lemma Run_fills_working_directory_witness :
  let after := snd (SBPlatform.Run (mkWorld (Some online) ls [])) in
  FileSpec.GetCString (Platform.GetWorkingDirectory online)
    = Some "/home/user" /\
  SBPlatformShellCommand.GetWorkingDirectory (SBPlatform.refs after)
    = Some "/home/user" /\
  m_working_dir (SBPlatform.refs after) = "/home/user" /\
  SBPlatform.transport_log after
    = [Platform.CallRunShellCommand "" "ls" (FileSpec.mk "/home/user") None].
Proof.
  split; [reflexivity|].
  exact (proj1 (Run_fills_working_directory online ls "ls" []
                  eq_refl eq_refl eq_refl)
               "/home/user" eq_refl).
Defined.

(** C5, as stated, at a valid connected platform that has no working
    directory: [Run] executes the command, and the working directory of
    the shell command is as null after the call as it was before. *)
Lemma Run_without_platform_directory :
  let w := mkWorld (Some no_directory) ls [] in
  SBPlatform.IsValid w = true /\
  SBPlatform.IsConnected w = true /\
  SBPlatformShellCommand.GetCommand ls = Some "ls" /\
  SBPlatformShellCommand.GetWorkingDirectory ls = None /\
  fst (SBPlatform.Run w) = Success /\
  SBPlatform.transport_log (snd (SBPlatform.Run w))
    = [Platform.CallRunShellCommand "" "ls" (FileSpec.mk "") None] /\
  SBPlatformShellCommand.GetWorkingDirectory
    (SBPlatform.refs (snd (SBPlatform.Run w))) = None /\
  SBPlatformShellCommand.GetWorkingDirectory
    (SBPlatform.refs (snd (SBPlatform.Run w))) <> Some "".
Proof.
  cbv zeta. repeat split. vm_compute. discriminate.
Qed.

End OnLoopback.

(** * Further properties *)

(** ** Shell command settings *)

(** X1. Each of [SetShell], [SetCommand] and [SetWorkingDirectory] reads
    back through its getter as null after a null or empty argument and as
    the argument otherwise, whatever the field held before. *)
Theorem shell_command_setters_read_back
    (c : PlatformShellCommand) (s : string) :
  SBPlatformShellCommand.GetShell
    (SBPlatformShellCommand.SetShell None c) = None /\
  SBPlatformShellCommand.GetShell
    (SBPlatformShellCommand.SetShell (Some "") c) = None /\
  SBPlatformShellCommand.GetShell
    (SBPlatformShellCommand.SetShell (Some s) c)
    = (if empty s then None else Some s) /\
  SBPlatformShellCommand.GetCommand
    (SBPlatformShellCommand.SetCommand None c) = None /\
  SBPlatformShellCommand.GetCommand
    (SBPlatformShellCommand.SetCommand (Some "") c) = None /\
  SBPlatformShellCommand.GetCommand
    (SBPlatformShellCommand.SetCommand (Some s) c)
    = (if empty s then None else Some s) /\
  SBPlatformShellCommand.GetWorkingDirectory
    (SBPlatformShellCommand.SetWorkingDirectory None c) = None /\
  SBPlatformShellCommand.GetWorkingDirectory
    (SBPlatformShellCommand.SetWorkingDirectory (Some "") c) = None /\
  SBPlatformShellCommand.GetWorkingDirectory
    (SBPlatformShellCommand.SetWorkingDirectory (Some s) c)
    = (if empty s then None else Some s).
Proof.
  repeat split; destruct s; reflexivity.
Qed.

(** X2. Interpreter and command are tied together only in the
    two-argument constructor.  A setter changes its own field and no
    other, so: clearing the interpreter afterwards keeps the command; a
    command that the constructor dropped does not come back when an
    interpreter is set; and [SetCommand] stores a command with no
    interpreter at all. *)
Theorem setters_leave_other_fields
    (x : PlatformShellCommand) (shell command : c_str)
    (a : ascii) (s : string) :
  (SBPlatformShellCommand.GetCommand
     (SBPlatformShellCommand.SetShell shell x)
   = SBPlatformShellCommand.GetCommand x /\
   SBPlatformShellCommand.GetShell
     (SBPlatformShellCommand.SetCommand command x)
   = SBPlatformShellCommand.GetShell x)
  /\
  (forall interpreter,
     interpreter <> "" ->
     SBPlatformShellCommand.GetCommand
       (SBPlatformShellCommand.SetShell None
          (SBPlatformShellCommand.new (Some interpreter)
                                      (Some (String a s))))
     = Some (String a s))
  /\
  SBPlatformShellCommand.GetCommand
    (SBPlatformShellCommand.SetShell shell
       (SBPlatformShellCommand.new None (Some (String a s))))
  = None
  /\
  SBPlatformShellCommand.GetCommand
    (SBPlatformShellCommand.SetCommand (Some (String a s))
       (SBPlatformShellCommand.new None command))
  = Some (String a s).
Proof.
  repeat split.
  intros interpreter Hne. destruct interpreter; [congruence | reflexivity].
Qed.

Lemma setters_leave_other_fields_witness :
  SBPlatformShellCommand.GetCommand
    (SBPlatformShellCommand.SetShell None
       (SBPlatformShellCommand.new (Some "/bin/sh") (Some "ls")))
  = Some "ls".
Proof.
  apply (proj1 (proj2 (setters_leave_other_fields
                         Loopback.ls None None "l"%char "s"))
               "/bin/sh").
  discriminate.
Defined.

(** X3. The one-argument constructor keeps a non-empty command although
    it has no interpreter, where the two-argument constructor with a null
    interpreter drops it; a null or empty command reads back as null.  A
    fresh shell command has no interpreter, no working directory, no
    output, status and signal zero, and a timeout that reads as
    [UINT32_MAX]. *)
Theorem one_argument_constructor (shell_command : c_str) (s : string) :
  SBPlatformShellCommand.GetCommand (SBPlatformShellCommand.new1 None)
    = None /\
  SBPlatformShellCommand.GetCommand (SBPlatformShellCommand.new1 (Some s))
    = (if empty s then None else Some s) /\
  (empty s = false ->
   SBPlatformShellCommand.GetCommand (SBPlatformShellCommand.new1 (Some s))
   <> SBPlatformShellCommand.GetCommand
        (SBPlatformShellCommand.new None (Some s))) /\
  let fresh := SBPlatformShellCommand.new1 shell_command in
  SBPlatformShellCommand.GetShell fresh = None /\
  SBPlatformShellCommand.GetWorkingDirectory fresh = None /\
  SBPlatformShellCommand.GetOutput fresh = None /\
  SBPlatformShellCommand.GetStatus fresh = 0 /\
  SBPlatformShellCommand.GetSignal fresh = 0 /\
  SBPlatformShellCommand.GetTimeoutSeconds fresh = UINT32_MAX.
Proof.
  split; [reflexivity|]. split; [destruct s; reflexivity|].
  split; [|cbv zeta; repeat split].
  destruct s as [|a s]; simpl; intros Hs.
  - discriminate Hs.
  - discriminate.
Qed.

Lemma one_argument_constructor_witness :
  SBPlatformShellCommand.GetCommand (SBPlatformShellCommand.new1 (Some "ls"))
  <> SBPlatformShellCommand.GetCommand
       (SBPlatformShellCommand.new None (Some "ls")).
Proof.
  apply (proj1 (proj2 (proj2 (one_argument_constructor None "ls")))).
  reflexivity.
Defined.

(** ** Rsync settings and the options constructor *)

(** X4. [EnableRsync] turns rsync on and replaces options, path prefix and
    the hostname flag by its arguments: a null or empty argument empties
    the field, so nothing of an earlier call is left behind, and the
    outcome for these fields does not depend on the options it was called
    on.  URL and local cache directory are not touched. *)
Theorem EnableRsync_replaces_settings
    (o o' : PlatformConnectOptions) (options remote_path_prefix : c_str)
    (omit_hostname_from_remote_path : bool) (s : string) :
  let enabled :=
    SBPlatformConnectOptions.EnableRsync
      options remote_path_prefix omit_hostname_from_remote_path o in
  let enabled' :=
    SBPlatformConnectOptions.EnableRsync
      options remote_path_prefix omit_hostname_from_remote_path o' in
  SBPlatformConnectOptions.GetRsyncEnabled enabled = true /\
  m_rsync_omit_hostname_from_remote_path enabled
    = omit_hostname_from_remote_path /\
  m_rsync_options enabled = m_rsync_options enabled' /\
  m_rsync_remote_path_prefix enabled = m_rsync_remote_path_prefix enabled' /\
  m_rsync_options
    (SBPlatformConnectOptions.EnableRsync
       None remote_path_prefix omit_hostname_from_remote_path o) = "" /\
  m_rsync_options
    (SBPlatformConnectOptions.EnableRsync
       (Some s) remote_path_prefix omit_hostname_from_remote_path o) = s /\
  m_rsync_remote_path_prefix
    (SBPlatformConnectOptions.EnableRsync
       options None omit_hostname_from_remote_path o) = "" /\
  m_rsync_remote_path_prefix
    (SBPlatformConnectOptions.EnableRsync
       options (Some s) omit_hostname_from_remote_path o) = s /\
  SBPlatformConnectOptions.GetURL enabled
    = SBPlatformConnectOptions.GetURL o /\
  SBPlatformConnectOptions.GetLocalCacheDirectory enabled
    = SBPlatformConnectOptions.GetLocalCacheDirectory o.
Proof.
  cbv zeta. repeat split; destruct s; reflexivity.
Qed.

(** X5. [DisableRsync] turns rsync off and changes nothing else: options,
    path prefix and hostname flag stay as the last [EnableRsync] left
    them, as do URL and cache directory.  Disabling twice is disabling
    once, and enabling after a disable gives what enabling alone gives. *)
Theorem DisableRsync_flips_the_flag_only
    (o : PlatformConnectOptions) (options remote_path_prefix : c_str)
    (omit_hostname_from_remote_path : bool) :
  let disabled := SBPlatformConnectOptions.DisableRsync o in
  SBPlatformConnectOptions.GetRsyncEnabled disabled = false /\
  m_rsync_options disabled = m_rsync_options o /\
  m_rsync_remote_path_prefix disabled = m_rsync_remote_path_prefix o /\
  m_rsync_omit_hostname_from_remote_path disabled
    = m_rsync_omit_hostname_from_remote_path o /\
  m_url disabled = m_url o /\
  m_local_cache_directory disabled = m_local_cache_directory o /\
  SBPlatformConnectOptions.DisableRsync disabled = disabled /\
  SBPlatformConnectOptions.EnableRsync
    options remote_path_prefix omit_hostname_from_remote_path disabled
  = SBPlatformConnectOptions.EnableRsync
      options remote_path_prefix omit_hostname_from_remote_path o.
Proof.
  cbv zeta. repeat split.
Qed.

(** X6. Constructing options from a URL is constructing them from nothing
    and then setting the URL: a null or empty URL reads back as null, any
    other as itself; rsync is off, its options and prefix are empty, and
    there is no local cache directory. *)
Theorem options_constructor (url : c_str) (s : string) :
  SBPlatformConnectOptions.new url
    = SBPlatformConnectOptions.SetURL url
        (SBPlatformConnectOptions.new None) /\
  SBPlatformConnectOptions.GetURL (SBPlatformConnectOptions.new None)
    = None /\
  SBPlatformConnectOptions.GetURL (SBPlatformConnectOptions.new (Some s))
    = (if empty s then None else Some s) /\
  SBPlatformConnectOptions.GetRsyncEnabled (SBPlatformConnectOptions.new url)
    = false /\
  m_rsync_options (SBPlatformConnectOptions.new url) = "" /\
  m_rsync_remote_path_prefix (SBPlatformConnectOptions.new url) = "" /\
  SBPlatformConnectOptions.GetLocalCacheDirectory
    (SBPlatformConnectOptions.new url) = None.
Proof.
  repeat split; destruct s; reflexivity.
Qed.

(** ** Operations on any platform *)

Section MoreOperations.

Context {ProcessLaunchInfo VersionTuple P : Type}
        {version : VersionTuple.ops VersionTuple}
        {platform : Platform.t ProcessLaunchInfo P}
        {more : PlatformMore.t VersionTuple P}.

Local Abbreviation Log := (list (Platform.Call ProcessLaunchInfo)).
Local Abbreviation World := (@SBPlatform.World ProcessLaunchInfo P).
Local Abbreviation mkWorld := (@SBPlatform.mkWorld ProcessLaunchInfo P).

(** The three ways out of [ExecuteConnected]. *)
Lemma ExecuteConnected_cases {C}
    (func : P -> World C -> Status * World C) (w : World C)
    (Q : SBError.t * World C -> Prop) :
  (SBPlatform.m_opaque_sp w = None -> Q (Failure "invalid platform", w)) ->
  (forall p, SBPlatform.m_opaque_sp w = Some p ->
             Platform.IsConnected p = false ->
             Q (Failure "not connected", w)) ->
  (forall p, SBPlatform.m_opaque_sp w = Some p ->
             Platform.IsConnected p = true ->
             Q (func p w)) ->
  Q (SBPlatform.ExecuteConnected func w).
Proof.
  intros Hinvalid Hoff Hon. unfold SBPlatform.ExecuteConnected, SBPlatform.GetSP.
  destruct (SBPlatform.m_opaque_sp w) as [p|] eqn:Hsp.
  - destruct (Platform.IsConnected p) eqn:Hp.
    + apply (Hon p); [reflexivity | exact Hp].
    + apply (Hoff p); [reflexivity | exact Hp].
  - apply Hinvalid. reflexivity.
Qed.

Lemma invoke_world {C A} (call : Platform.Call ProcessLaunchInfo)
    (op : P -> A * P) (p : P) (w : World C) :
  SBPlatform.invoke call op p w
  = (fst (op p),
     mkWorld (Some (snd (op p))) (SBPlatform.refs w)
       (SBPlatform.transport_log w ++ [call])%list).
Proof.
  unfold SBPlatform.invoke. destruct (op p). reflexivity.
Qed.

(** What the body of [Run] does once the gate is passed and a command is
    there: the working directory is the one of the shell command, or else
    the one of the platform. *)
Lemma Run_body (p : P) (w : World PlatformShellCommand) (command : string) :
  SBPlatform.m_opaque_sp w = Some p ->
  Platform.IsConnected p = true ->
  SBPlatformShellCommand.GetCommand (SBPlatform.refs w) = Some command ->
  let shell_command := SBPlatform.refs w in
  let cwd := FileSpec.GetCString (Platform.GetWorkingDirectory p) in
  let working_dir :=
    match SBPlatformShellCommand.GetWorkingDirectory shell_command with
    | Some d => Some d
    | None => cwd
    end in
  let ran :=
    Platform.RunShellCommand
      (m_shell shell_command) command
      (FileSpec.of_path (StringRef working_dir))
      {| status := m_status shell_command;
         signo := m_signo shell_command;
         command_output := m_output shell_command |}
      (Timeout_micro (m_timeout shell_command)) p in
  SBPlatform.Run w
  = (fst (fst ran),
     mkWorld (Some (snd ran))
       {| m_shell := m_shell shell_command;
          m_command := m_command shell_command;
          m_working_dir :=
            match SBPlatformShellCommand.GetWorkingDirectory shell_command,
                  cwd with
            | None, Some d => d
            | _, _ => m_working_dir shell_command
            end;
          m_output := command_output (snd (fst ran));
          m_status := status (snd (fst ran));
          m_signo := signo (snd (fst ran));
          m_timeout := m_timeout shell_command |}
       (SBPlatform.transport_log w
        ++ [Platform.CallRunShellCommand
              (m_shell shell_command) command
              (FileSpec.of_path (StringRef working_dir))
              (Timeout_micro (m_timeout shell_command))])%list).
Proof.
  intros Hsp Hon Hcommand. cbv zeta.
  unfold SBPlatform.Run, SBPlatform.ExecuteConnected, SBPlatform.GetSP.
  rewrite Hsp, Hon, Hcommand.
  destruct (SBPlatformShellCommand.GetWorkingDirectory (SBPlatform.refs w))
    as [d|] eqn:Hwd.
  - match goal with
    | |- context [Platform.RunShellCommand ?a ?b ?c ?d ?e ?f] =>
        destruct (Platform.RunShellCommand a b c d e f) as [[error out] p']
    end.
    reflexivity.
  - destruct (FileSpec.GetCString (Platform.GetWorkingDirectory p))
      as [d|] eqn:Hcwd.
    + destruct (GetCString_chars _ _ Hcwd) as [_ Hd].
      destruct d as [|a d]; [discriminate Hd|].
      cbn [SBPlatformShellCommand.SetWorkingDirectory assign_or_clear
           m_shell m_command m_working_dir m_output m_status m_signo
           m_timeout].
      match goal with
      | |- context [Platform.RunShellCommand ?a ?b ?c ?d ?e ?f] =>
          destruct (Platform.RunShellCommand a b c d e f) as [[error out] p']
      end.
      reflexivity.
    + match goal with
      | |- context [Platform.RunShellCommand ?a ?b ?c ?d ?e ?f] =>
          destruct (Platform.RunShellCommand a b c d e f) as [[error out] p']
      end.
      reflexivity.
Qed.

(** Every operation either leaves the world as it found it, or was given
    a valid platform, made one call to it, and left the platform valid. *)
Local Abbreviation one_step w w' :=
  (w' = w \/
   exists p' c' call,
     SBPlatform.IsValid w = true /\
     w' = mkWorld (Some p') c'
            (app (SBPlatform.transport_log w) (cons call nil))).

Lemma IsValid_pointer {C} (w : World C) (p : P) :
  SBPlatform.m_opaque_sp w = Some p -> SBPlatform.IsValid w = true.
Proof.
  intros Hsp. unfold SBPlatform.IsValid. rewrite Hsp. reflexivity.
Qed.

Lemma invoke_step {C A} (call : Platform.Call ProcessLaunchInfo)
    (op : P -> A * P) (p : P) (w : World C) :
  SBPlatform.m_opaque_sp w = Some p ->
  one_step w (snd (SBPlatform.invoke call op p w)).
Proof.
  intros Hsp. rewrite invoke_world. right.
  exists (snd (op p)), (SBPlatform.refs w), call.
  split; [exact (IsValid_pointer w p Hsp) | reflexivity].
Qed.

Lemma ConnectRemote_step {C} (connect_options : PlatformConnectOptions)
    (w : World C) :
  one_step w (snd (SBPlatform.ConnectRemote connect_options w)).
Proof.
  unfold SBPlatform.ConnectRemote, SBPlatform.GetSP.
  destruct (SBPlatform.m_opaque_sp w) as [p|] eqn:Hsp;
    [|left; reflexivity].
  destruct (SBPlatformConnectOptions.GetURL connect_options);
    [|left; reflexivity].
  apply invoke_step. exact Hsp.
Qed.

Lemma Get_step {C} (src dst : SBFileSpec.t) (w : World C) :
  one_step w (snd (SBPlatform.Get src dst w)).
Proof.
  unfold SBPlatform.Get, SBPlatform.GetSP.
  destruct (SBPlatform.m_opaque_sp w) as [p|] eqn:Hsp;
    [|left; reflexivity].
  apply invoke_step. exact Hsp.
Qed.

Lemma Put_step {C} (eDirectoryDefault eFileDefault : Z) (fs : FileSystem.t)
    (src dst : SBFileSpec.t) (w : World C) :
  one_step w
    (snd (SBPlatform.Put eDirectoryDefault eFileDefault fs src dst w)).
Proof.
  unfold SBPlatform.Put.
  apply ExecuteConnected_cases; try (intros; left; reflexivity).
  intros p Hsp _.
  destruct (SBFileSpec.Exists fs src); [|left; reflexivity].
  apply invoke_step. exact Hsp.
Qed.

Lemma Install_step {C} (fs : FileSystem.t) (src dst : SBFileSpec.t)
    (w : World C) :
  one_step w (snd (SBPlatform.Install fs src dst w)).
Proof.
  unfold SBPlatform.Install.
  apply ExecuteConnected_cases; try (intros; left; reflexivity).
  intros p Hsp _.
  destruct (SBFileSpec.Exists fs src); [|left; reflexivity].
  apply invoke_step. exact Hsp.
Qed.

Lemma Kill_step {C} (pid : Z) (w : World C) :
  one_step w (snd (SBPlatform.Kill pid w)).
Proof.
  unfold SBPlatform.Kill.
  apply ExecuteConnected_cases; try (intros; left; reflexivity).
  intros p Hsp _. apply invoke_step. exact Hsp.
Qed.

Lemma Launch_step (w : World ProcessLaunchInfo) :
  one_step w (snd (SBPlatform.Launch w)).
Proof.
  unfold SBPlatform.Launch.
  apply ExecuteConnected_cases; try (intros; left; reflexivity).
  intros p Hsp _.
  destruct (Platform.LaunchProcess (SBPlatform.refs w) p)
    as [[error info'] p'].
  right. exists p', info', (Platform.CallLaunchProcess (SBPlatform.refs w)).
  split; [exact (IsValid_pointer w p Hsp) | reflexivity].
Qed.

(** [Run] either changes nothing at all, or passed the gate with a
    command. *)
Lemma Run_unchanged_or_ran (w : World PlatformShellCommand) :
  snd (SBPlatform.Run w) = w \/
  exists p command,
    SBPlatform.m_opaque_sp w = Some p /\
    Platform.IsConnected p = true /\
    SBPlatformShellCommand.GetCommand (SBPlatform.refs w) = Some command.
Proof.
  destruct (SBPlatform.m_opaque_sp w) as [p|] eqn:Hsp.
  - destruct (Platform.IsConnected p) eqn:Hp.
    + destruct (SBPlatformShellCommand.GetCommand (SBPlatform.refs w))
        as [command|] eqn:Hcommand.
      * right. exists p, command. repeat split; assumption.
      * left. unfold SBPlatform.Run, SBPlatform.ExecuteConnected,
          SBPlatform.GetSP.
        rewrite Hsp, Hp, Hcommand. reflexivity.
    + left. unfold SBPlatform.Run, SBPlatform.ExecuteConnected,
        SBPlatform.GetSP.
      rewrite Hsp, Hp. reflexivity.
  - left. unfold SBPlatform.Run, SBPlatform.ExecuteConnected,
      SBPlatform.GetSP.
    rewrite Hsp. reflexivity.
Qed.

Lemma Run_step (w : World PlatformShellCommand) :
  one_step w (snd (SBPlatform.Run w)).
Proof.
  destruct (Run_unchanged_or_ran w) as [Hsame | (p & command & Hsp & Hp & Hc)].
  - left. exact Hsame.
  - right. rewrite (Run_body p w command Hsp Hp Hc). simpl.
    eexists _, _, _. split; [exact (IsValid_pointer w p Hsp) | reflexivity].
Qed.

(** X7. Connecting with options that were constructed without a URL, or
    whose URL was set to null or to the empty string, fails with "invalid
    platform" on every platform, valid ones included, and calls nothing;
    with options constructed from a non-empty URL, a valid platform
    receives one [ConnectRemote] call whose only argument is that URL,
    whether or not it is connected already. *)
Theorem ConnectRemote_with_constructed_options
    (connect_options : PlatformConnectOptions) (sp : option P) (p : P)
    (C : Type) (c : C) (log : Log) (a : ascii) (s : string) :
  let refused w :=
    (Failure "invalid platform", w) : SBError.t * World C in
  SBPlatform.ConnectRemote (SBPlatformConnectOptions.new None)
      (mkWorld sp c log)
    = refused (mkWorld sp c log) /\
  SBPlatform.ConnectRemote (SBPlatformConnectOptions.new (Some ""))
      (mkWorld sp c log)
    = refused (mkWorld sp c log) /\
  SBPlatform.ConnectRemote
      (SBPlatformConnectOptions.SetURL None connect_options)
      (mkWorld sp c log)
    = refused (mkWorld sp c log) /\
  SBPlatform.ConnectRemote
      (SBPlatformConnectOptions.SetURL (Some "") connect_options)
      (mkWorld sp c log)
    = refused (mkWorld sp c log) /\
  let url := String a s in
  let connect := Platform.ConnectRemote [url] p in
  SBPlatform.ConnectRemote (SBPlatformConnectOptions.new (Some url))
      (mkWorld (Some p) c log)
  = (fst connect,
     mkWorld (Some (snd connect)) c
       (log ++ [Platform.CallConnectRemote [url]])%list).
Proof.
  cbv zeta. repeat split; try (destruct sp; reflexivity).
  unfold SBPlatform.ConnectRemote. simpl. apply invoke_eq.
Qed.

(** X8. Whatever the platform and whatever happens, [Run] leaves the
    interpreter, the command and the timeout of the shell command as they
    were, and a working directory that was set is never replaced. *)
Theorem Run_keeps_settings (w : World PlatformShellCommand) :
  let before := SBPlatform.refs w in
  let after := SBPlatform.refs (snd (SBPlatform.Run w)) in
  m_shell after = m_shell before /\
  m_command after = m_command before /\
  m_timeout after = m_timeout before /\
  (SBPlatformShellCommand.GetWorkingDirectory before <> None ->
   m_working_dir after = m_working_dir before).
Proof.
  cbv zeta.
  destruct (Run_unchanged_or_ran w) as [Hsame | (p & command & Hsp & Hp & Hc)].
  - rewrite Hsame. repeat split.
  - rewrite (Run_body p w command Hsp Hp Hc). simpl.
    repeat split. intros Hset.
    destruct (SBPlatformShellCommand.GetWorkingDirectory (SBPlatform.refs w));
      [reflexivity | congruence].
Qed.

Lemma one_step_log {C} (w w' : World C) :
  one_step w w' ->
  exists calls,
    SBPlatform.transport_log w' = (SBPlatform.transport_log w ++ calls)%list
    /\ (length calls <= 1)%nat.
Proof.
  intros [-> | (p' & c' & call & _ & ->)].
  - exists []. rewrite app_nil_r. split; [reflexivity | apply Nat.le_0_l].
  - exists [call]. split; [reflexivity | apply Nat.le_refl].
Qed.

Lemma one_step_valid {C} (w w' : World C) :
  one_step w w' -> SBPlatform.IsValid w' = SBPlatform.IsValid w.
Proof.
  intros [-> | (p' & c' & call & Hvalid & ->)].
  - reflexivity.
  - rewrite Hvalid. reflexivity.
Qed.

(** X9. No operation retries or calls the platform twice: after
    [ConnectRemote], [Get], [Put], [Install], [Kill], [Run] or [Launch],
    in any state of the platform, the history of platform calls is the
    earlier history followed by at most one call. *)
Theorem at_most_one_platform_call
    (connect_options : PlatformConnectOptions)
    (eDirectoryDefault eFileDefault : Z) (fs : FileSystem.t)
    (src dst : SBFileSpec.t) (pid : Z) (C : Type) (w : World C)
    (w_run : World PlatformShellCommand)
    (w_launch : World ProcessLaunchInfo) :
  let grows {C} (w w' : World C) :=
    exists calls,
      SBPlatform.transport_log w'
      = (SBPlatform.transport_log w ++ calls)%list
      /\ (length calls <= 1)%nat in
  grows w (snd (SBPlatform.ConnectRemote connect_options w)) /\
  grows w (snd (SBPlatform.Get src dst w)) /\
  grows w (snd (SBPlatform.Put eDirectoryDefault eFileDefault
                               fs src dst w)) /\
  grows w (snd (SBPlatform.Install fs src dst w)) /\
  grows w (snd (SBPlatform.Kill pid w)) /\
  grows w_run (snd (SBPlatform.Run w_run)) /\
  grows w_launch (snd (SBPlatform.Launch w_launch)).
Proof.
  cbv zeta. repeat split; apply one_step_log.
  - apply ConnectRemote_step.
  - apply Get_step.
  - apply Put_step.
  - apply Install_step.
  - apply Kill_step.
  - apply Run_step.
  - apply Launch_step.
Qed.

(** X10. No operation repairs or destroys the platform: after
    [ConnectRemote], [Get], [Put], [Install], [Kill], [Run] or [Launch]
    the platform is valid exactly when it was valid before. *)
Theorem operations_preserve_validity
    (connect_options : PlatformConnectOptions)
    (eDirectoryDefault eFileDefault : Z) (fs : FileSystem.t)
    (src dst : SBFileSpec.t) (pid : Z) (C : Type) (w : World C)
    (w_run : World PlatformShellCommand)
    (w_launch : World ProcessLaunchInfo) :
  SBPlatform.IsValid (snd (SBPlatform.ConnectRemote connect_options w))
    = SBPlatform.IsValid w /\
  SBPlatform.IsValid (snd (SBPlatform.Get src dst w))
    = SBPlatform.IsValid w /\
  SBPlatform.IsValid
    (snd (SBPlatform.Put eDirectoryDefault eFileDefault fs src dst w))
    = SBPlatform.IsValid w /\
  SBPlatform.IsValid (snd (SBPlatform.Install fs src dst w))
    = SBPlatform.IsValid w /\
  SBPlatform.IsValid (snd (SBPlatform.Kill pid w))
    = SBPlatform.IsValid w /\
  SBPlatform.IsValid (snd (SBPlatform.Run w_run))
    = SBPlatform.IsValid w_run /\
  SBPlatform.IsValid (snd (SBPlatform.Launch w_launch))
    = SBPlatform.IsValid w_launch.
Proof.
  repeat split; apply one_step_valid.
  - apply ConnectRemote_step.
  - apply Get_step.
  - apply Put_step.
  - apply Install_step.
  - apply Kill_step.
  - apply Run_step.
  - apply Launch_step.
Qed.

(** X11. On a valid connected platform, [Run] of a shell command that has
    a command and a working directory calls [RunShellCommand] once with
    the interpreter, the command, that working directory and the timeout
    in microseconds, handing it the status, signal and output of the
    earlier run; it returns the status of the call, success or failure,
    and stores the status, signal and output that the call left. *)
Theorem Run_with_working_directory
    (p : P) (shell_command : PlatformShellCommand)
    (command working_dir : string) (log : Log) :
  Platform.IsConnected p = true ->
  SBPlatformShellCommand.GetCommand shell_command = Some command ->
  SBPlatformShellCommand.GetWorkingDirectory shell_command
    = Some working_dir ->
  let ran :=
    Platform.RunShellCommand
      (m_shell shell_command) command (FileSpec.of_path working_dir)
      {| status := m_status shell_command;
         signo := m_signo shell_command;
         command_output := m_output shell_command |}
      (Timeout_micro (m_timeout shell_command)) p in
  SBPlatform.Run (mkWorld (Some p) shell_command log)
  = (fst (fst ran),
     mkWorld (Some (snd ran))
       {| m_shell := m_shell shell_command;
          m_command := m_command shell_command;
          m_working_dir := m_working_dir shell_command;
          m_output := command_output (snd (fst ran));
          m_status := status (snd (fst ran));
          m_signo := signo (snd (fst ran));
          m_timeout := m_timeout shell_command |}
       (log ++ [Platform.CallRunShellCommand
                  (m_shell shell_command) command
                  (FileSpec.of_path working_dir)
                  (Timeout_micro (m_timeout shell_command))])%list).
Proof.
  intros Hon Hcommand Hwd. cbv zeta.
  rewrite (Run_body p (mkWorld (Some p) shell_command log) command
                    eq_refl Hon Hcommand).
  simpl. rewrite Hwd. reflexivity.
Qed.

(** X12. On a valid connected platform, [Install] of a source that exists
    locally calls the platform's [Install] once with source and
    destination and returns its status; it does not look at permissions
    and does not call [PutFile]. *)
Theorem Install_existing_source
    (fs : FileSystem.t) (src dst : SBFileSpec.t) (p : P)
    (C : Type) (c : C) (log : Log) :
  Platform.IsConnected p = true ->
  SBFileSpec.Exists fs src = true ->
  let installed :=
    Platform.Install (SBFileSpec.ref src) (SBFileSpec.ref dst) p in
  SBPlatform.Install fs src dst (mkWorld (Some p) c log)
  = (fst installed,
     mkWorld (Some (snd installed)) c
       (log ++ [Platform.CallInstall (SBFileSpec.ref src)
                                     (SBFileSpec.ref dst)])%list).
Proof.
  intros Hon Hexists. cbv zeta. unfold SBPlatform.Install.
  rewrite ExecuteConnected_connected by exact Hon.
  rewrite Hexists. apply invoke_eq.
Qed.

(** X13. On a valid connected platform, [Launch] hands the launch
    information to [LaunchProcess] once and puts back the information the
    call returns, whether the call succeeded or not; [Kill] calls
    [KillProcess] once with the process id; both return the status of the
    call. *)
Theorem Launch_and_Kill_when_connected
    (p : P) (launch_info : ProcessLaunchInfo) (pid : Z)
    (C : Type) (c : C) (log : Log) :
  Platform.IsConnected p = true ->
  (let launched := Platform.LaunchProcess launch_info p in
   SBPlatform.Launch (mkWorld (Some p) launch_info log)
   = (fst (fst launched),
      mkWorld (Some (snd launched)) (snd (fst launched))
        (log ++ [Platform.CallLaunchProcess launch_info])%list))
  /\
  (let killed := Platform.KillProcess pid p in
   SBPlatform.Kill pid (mkWorld (Some p) c log)
   = (fst killed,
      mkWorld (Some (snd killed)) c
        (log ++ [Platform.CallKillProcess pid])%list)).
Proof.
  intros Hon. cbv zeta. split.
  - unfold SBPlatform.Launch.
    rewrite ExecuteConnected_connected by exact Hon. simpl.
    destruct (Platform.LaunchProcess launch_info p) as [[error info'] p'].
    reflexivity.
  - unfold SBPlatform.Kill.
    rewrite ExecuteConnected_connected by exact Hon.
    apply invoke_eq.
Qed.

(** X14. When both default permission values are non-zero, [Put] never
    asks the platform to upload with permissions zero: every [PutFile]
    call in the history after [Put] was in the history before, or carries
    non-zero permissions. *)
Theorem Put_never_uploads_zero_permissions
    (eDirectoryDefault eFileDefault : Z) (fs : FileSystem.t)
    (src dst : SBFileSpec.t) (C : Type) (w : World C)
    (source destination : FileSpec.t) (permissions : Z) :
  eDirectoryDefault <> 0 ->
  eFileDefault <> 0 ->
  In (Platform.CallPutFile source destination permissions)
     (SBPlatform.transport_log
        (snd (SBPlatform.Put eDirectoryDefault eFileDefault
                             fs src dst w))) ->
  In (Platform.CallPutFile source destination permissions)
     (SBPlatform.transport_log w)
  \/ permissions <> 0.
Proof.
  intros Hdir Hfile. unfold SBPlatform.Put.
  apply ExecuteConnected_cases; try (intros; left; assumption).
  intros p Hsp Hon.
  destruct (SBFileSpec.Exists fs src); [|intros; left; assumption].
  rewrite invoke_world. simpl. intros Hin.
  apply in_app_or in Hin. destruct Hin as [Hold | [Hnew | []]].
  - left. exact Hold.
  - right. injection Hnew as _ _ <-.
    destruct (Z.eqb_spec (FileSystem.GetPermissions fs (SBFileSpec.ref src)) 0)
      as [_|Hread].
    + destruct (FileSystem.IsDirectory fs (SBFileSpec.ref src)); assumption.
    + exact Hread.
Qed.

(** ** Clearing, and the methods that need only a valid platform *)

(** X15. [Clear] makes the platform invalid and not connected, keeps
    everything else, and clearing twice is clearing once.  On a cleared
    platform every operation fails with "invalid platform" and calls
    nothing, [SetWorkingDirectory] returns false, the working directory
    is null and file permissions read as zero. *)
Theorem Clear_invalidates
    (connect_options : PlatformConnectOptions)
    (eDirectoryDefault eFileDefault : Z) (fs : FileSystem.t)
    (src dst : SBFileSpec.t) (pid : Z) (path : c_str)
    (file_permissions : Z) (C : Type) (w : World C)
    (w_run : World PlatformShellCommand)
    (w_launch : World ProcessLaunchInfo) :
  let cleared := SBPlatformMore.Clear w in
  let invalid := Failure "invalid platform" in
  (SBPlatform.IsValid cleared = false /\
   SBPlatform.IsConnected cleared = false /\
   SBPlatform.refs cleared = SBPlatform.refs w /\
   SBPlatform.transport_log cleared = SBPlatform.transport_log w /\
   SBPlatformMore.Clear cleared = cleared)
  /\
  (SBPlatform.ConnectRemote connect_options cleared = (invalid, cleared) /\
   SBPlatform.Get src dst cleared = (invalid, cleared) /\
   SBPlatform.Put eDirectoryDefault eFileDefault fs src dst cleared
     = (invalid, cleared) /\
   SBPlatform.Install fs src dst cleared = (invalid, cleared) /\
   SBPlatform.Kill pid cleared = (invalid, cleared) /\
   SBPlatform.Run (SBPlatformMore.Clear w_run)
     = (invalid, SBPlatformMore.Clear w_run) /\
   SBPlatform.Launch (SBPlatformMore.Clear w_launch)
     = (invalid, SBPlatformMore.Clear w_launch))
  /\
  (let sp := SBPlatform.GetSP cleared in
   SBPlatformMore.MakeDirectory path file_permissions sp = (invalid, None) /\
   SBPlatformMore.SetFilePermissions path file_permissions sp
     = (invalid, None) /\
   SBPlatformMore.GetFilePermissions path sp = (0, None) /\
   SBPlatformMore.SetWorkingDirectory path sp = (false, None) /\
   SBPlatformMore.GetWorkingDirectory sp = None /\
   SBPlatformMore.DisconnectRemote sp = None).
Proof.
  cbv zeta. repeat split.
Qed.

(** X16. [MakeDirectory] and [SetFilePermissions] fail with "invalid
    platform" on an invalid platform, and on every valid platform,
    connected or not, they call the platform's method on the path (the
    empty path for a null pointer) with the permissions given and return
    its status.  Where [Put] on a valid platform that is not connected is
    refused, these two still reach the platform. *)
Theorem MakeDirectory_needs_no_connection
    (eDirectoryDefault eFileDefault : Z) (fs : FileSystem.t)
    (src dst : SBFileSpec.t) (p : P) (path : c_str) (file_permissions : Z)
    (C : Type) (c : C) (log : Log) :
  let invalid := Failure "invalid platform" in
  let target := FileSpec.of_path (StringRef path) in
  let made := PlatformMore.MakeDirectory target file_permissions p in
  let changed := PlatformMore.SetFilePermissions target file_permissions p in
  SBPlatformMore.MakeDirectory path file_permissions None
    = (invalid, None) /\
  SBPlatformMore.SetFilePermissions path file_permissions None
    = (invalid, None) /\
  SBPlatformMore.MakeDirectory path file_permissions (Some p)
    = (fst made, Some (snd made)) /\
  SBPlatformMore.SetFilePermissions path file_permissions (Some p)
    = (fst changed, Some (snd changed)) /\
  (Platform.IsConnected p = false ->
   SBPlatform.Put eDirectoryDefault eFileDefault fs src dst
       (mkWorld (Some p) c log)
     = (Failure "not connected", mkWorld (Some p) c log)).
Proof.
  cbv zeta. repeat split.
  - unfold SBPlatformMore.MakeDirectory.
    destruct (PlatformMore.MakeDirectory _ _ _). reflexivity.
  - unfold SBPlatformMore.SetFilePermissions.
    destruct (PlatformMore.SetFilePermissions _ _ _). reflexivity.
  - intros Hoff. apply ExecuteConnected_not_connected. exact Hoff.
Qed.

(** X17. [GetFilePermissions] drops the status of the platform's lookup
    and returns what the lookup left in a variable that started at zero.
    So a lookup that fails without writing its result reads as zero, the
    same answer as on an invalid platform. *)
Theorem GetFilePermissions_drops_status
    (p p' : P) (path : c_str) (error : Status) (file_permissions : Z) :
  PlatformMore.GetFilePermissions (FileSpec.of_path (StringRef path)) 0 p
    = ((error, file_permissions), p') ->
  SBPlatformMore.GetFilePermissions path (Some p)
    = (file_permissions, Some p') /\
  SBPlatformMore.GetFilePermissions path None = (0, None).
Proof.
  intros Hlookup. split; [|reflexivity].
  unfold SBPlatformMore.GetFilePermissions. rewrite Hlookup. reflexivity.
Qed.

(** X18. The three version getters ask the platform only when it is
    valid.  Provided a default-constructed version tuple is empty and has
    neither minor nor subminor component, an invalid platform reads
    [UINT32_MAX] for major, minor and update version.  On a valid
    platform the major version reads [UINT32_MAX] when the version tuple
    is empty, and minor and update version read [UINT32_MAX] when the
    tuple lacks the component and the component otherwise. *)
Theorem version_getters_sentinel (p : P) :
  (VersionTuple.empty (VersionTuple.default (T := VersionTuple)) = true ->
   VersionTuple.getMinor (VersionTuple.default (T := VersionTuple)) = None ->
   VersionTuple.getSubminor (VersionTuple.default (T := VersionTuple))
     = None ->
   SBPlatformMore.GetOSMajorVersion (P := P) None = (UINT32_MAX, None) /\
   SBPlatformMore.GetOSMinorVersion (P := P) None = (UINT32_MAX, None) /\
   SBPlatformMore.GetOSUpdateVersion (P := P) None = (UINT32_MAX, None))
  /\
  (let os_version := fst (PlatformMore.GetOSVersion p) in
   (VersionTuple.empty os_version = true ->
    fst (SBPlatformMore.GetOSMajorVersion (Some p)) = UINT32_MAX) /\
   (VersionTuple.empty os_version = false ->
    fst (SBPlatformMore.GetOSMajorVersion (Some p))
    = VersionTuple.getMajor os_version) /\
   (VersionTuple.getMinor os_version = None ->
    fst (SBPlatformMore.GetOSMinorVersion (Some p)) = UINT32_MAX) /\
   (forall n, VersionTuple.getMinor os_version = Some n ->
              fst (SBPlatformMore.GetOSMinorVersion (Some p)) = n) /\
   (VersionTuple.getSubminor os_version = None ->
    fst (SBPlatformMore.GetOSUpdateVersion (Some p)) = UINT32_MAX) /\
   (forall n, VersionTuple.getSubminor os_version = Some n ->
              fst (SBPlatformMore.GetOSUpdateVersion (Some p)) = n)).
Proof.
  split.
  - intros Hempty Hminor Hsubminor.
    unfold SBPlatformMore.GetOSMajorVersion,
      SBPlatformMore.GetOSMinorVersion, SBPlatformMore.GetOSUpdateVersion.
    simpl. rewrite Hempty, Hminor, Hsubminor. repeat split.
  - cbv zeta.
    unfold SBPlatformMore.GetOSMajorVersion,
      SBPlatformMore.GetOSMinorVersion, SBPlatformMore.GetOSUpdateVersion,
      SBPlatformMore.os_version.
    destruct (PlatformMore.GetOSVersion p) as [v p']. simpl.
    repeat split; intros; rewrite H; reflexivity.
Qed.

(** X19. None of the methods that work on a valid platform changes
    whether the platform is valid, and [SetWorkingDirectory] returns true
    exactly on a valid platform, for a null path too. *)
Theorem pointer_methods_preserve_validity
    (sp : option P) (path : c_str) (file_permissions : Z) :
  (fst (SBPlatformMore.SetWorkingDirectory path sp) = true <-> sp <> None) /\
  (snd (SBPlatformMore.SetWorkingDirectory path sp) = None <-> sp = None) /\
  (SBPlatformMore.DisconnectRemote sp = None <-> sp = None) /\
  (snd (SBPlatformMore.MakeDirectory path file_permissions sp) = None
   <-> sp = None) /\
  (snd (SBPlatformMore.SetFilePermissions path file_permissions sp) = None
   <-> sp = None) /\
  (snd (SBPlatformMore.GetFilePermissions path sp) = None <-> sp = None) /\
  (snd (SBPlatformMore.GetOSMajorVersion sp) = None <-> sp = None) /\
  (snd (SBPlatformMore.GetOSMinorVersion sp) = None <-> sp = None) /\
  (snd (SBPlatformMore.GetOSUpdateVersion sp) = None <-> sp = None).
Proof.
  unfold SBPlatformMore.SetWorkingDirectory, SBPlatformMore.DisconnectRemote,
    SBPlatformMore.MakeDirectory, SBPlatformMore.SetFilePermissions,
    SBPlatformMore.GetFilePermissions, SBPlatformMore.GetOSMajorVersion,
    SBPlatformMore.GetOSMinorVersion, SBPlatformMore.GetOSUpdateVersion,
    SBPlatformMore.os_version.
  destruct sp as [p|].
  - destruct path as [s|];
      [destruct (PlatformMore.SetWorkingDirectory (FileSpec.of_path s) p)
      |destruct (PlatformMore.SetWorkingDirectory FileSpec.default p)];
      destruct (PlatformMore.MakeDirectory _ _ p);
      destruct (PlatformMore.SetFilePermissions _ _ p);
      destruct (PlatformMore.GetFilePermissions _ _ p) as [[? ?] ?];
      destruct (PlatformMore.GetOSVersion p);
      simpl; repeat split; congruence.
  - simpl. repeat split; congruence.
Qed.

End MoreOperations.

(** ** The further properties on the loopback platform *)

Section MoreOnLoopback.

Import Loopback LoopbackMore.

Local Abbreviation mkWorld := (@SBPlatform.mkWorld Z Loopback.state).

Lemma Run_keeps_settings_witness :
  SBPlatformShellCommand.GetWorkingDirectory rerun <> None /\
  m_working_dir
    (SBPlatform.refs (snd (SBPlatform.Run (mkWorld (Some online) rerun []))))
  = "/src".
Proof.
  assert (Hset : SBPlatformShellCommand.GetWorkingDirectory rerun <> None)
    by discriminate.
  split; [exact Hset|].
  exact (proj2 (proj2 (proj2
           (Run_keeps_settings (mkWorld (Some online) rerun []))))
           Hset).
Defined.

Lemma Run_with_working_directory_witness :
  SBPlatform.Run (mkWorld (Some online) rerun [])
  = (Success,
     mkWorld (Some online)
       {| m_shell := "/bin/sh";
          m_command := "make";
          m_working_dir := "/src";
          m_output := "/src$ make";
          m_status := 0;
          m_signo := 0;
          m_timeout := Some 30 |}
       [Platform.CallRunShellCommand "/bin/sh" "make" (FileSpec.mk "/src")
                                     (Some 30000000)]).
Proof.
  exact (Run_with_working_directory online rerun "make" "/src" []
           eq_refl eq_refl eq_refl).
Defined.

Lemma Install_existing_source_witness :
  SBFileSpec.Exists local_fs (file "/tmp/a.out") = true /\
  SBPlatform.Install local_fs (file "/tmp/a.out") (file "/srv/a.out")
      (mkWorld (Some online) tt [])
  = (Success,
     mkWorld (Some (add_file "/srv/a.out" online)) tt
       [Platform.CallInstall (FileSpec.mk "/tmp/a.out")
                             (FileSpec.mk "/srv/a.out")]).
Proof.
  split; [reflexivity|].
  exact (Install_existing_source local_fs (file "/tmp/a.out")
           (file "/srv/a.out") online unit tt [] eq_refl eq_refl).
Defined.

Lemma Launch_and_Kill_when_connected_witness :
  fst (SBPlatform.Launch (mkWorld (Some online) 0 [])) = Success /\
  SBPlatform.refs (snd (SBPlatform.Launch (mkWorld (Some online) 0 [])))
    = 100 /\
  SBPlatform.Kill 100 (mkWorld (Some online) tt [])
  = (Success, mkWorld (Some online) tt [Platform.CallKillProcess 100]).
Proof.
  destruct (Launch_and_Kill_when_connected
              (platform := Loopback.platform) online 0 100 unit tt []
              (@eq_refl bool true))
    as [Hlaunch Hkill].
  cbv zeta in Hlaunch, Hkill. rewrite Hlaunch.
  split; [reflexivity|]. split; [reflexivity | exact Hkill].
Defined.

Lemma Put_never_uploads_zero_permissions_witness :
  In (Platform.CallPutFile (FileSpec.mk "/tmp/dir") (FileSpec.mk "/srv/dir")
                           directory_default)
     (@nil (Platform.Call Z))
  \/ directory_default <> 0.
Proof.
  apply (Put_never_uploads_zero_permissions
           directory_default file_default local_fs
           directory (file "/srv/dir") unit (mkWorld (Some online) tt [])).
  - discriminate.
  - discriminate.
  - simpl. left. reflexivity.
Defined.

Lemma MakeDirectory_needs_no_connection_witness :
  Platform.IsConnected offline = false /\
  SBPlatformMore.MakeDirectory (Some "/srv/new") 448 (Some offline)
    = (Success, Some (add_file "/srv/new" offline)) /\
  SBPlatform.Put directory_default file_default local_fs
      directory (file "/srv/dir") (mkWorld (Some offline) tt [])
    = (Failure "not connected", mkWorld (Some offline) tt []).
Proof.
  destruct (MakeDirectory_needs_no_connection
              directory_default file_default local_fs
              directory (file "/srv/dir") offline (Some "/srv/new") 448
              unit tt [])
    as (_ & _ & Hmade & _ & Hput).
  split; [reflexivity|]. split; [exact Hmade | exact (Hput eq_refl)].
Defined.

Lemma GetFilePermissions_drops_status_witness :
  SBPlatformMore.GetFilePermissions (Some "/nowhere") (Some online)
    = (0, Some online) /\
  SBPlatformMore.GetFilePermissions (P := Loopback.state) (Some "/nowhere")
                                    None
    = (0, None).
Proof.
  exact (GetFilePermissions_drops_status online online (Some "/nowhere")
           (Failure "no such file") 0 eq_refl).
Defined.

Lemma version_getters_sentinel_witness :
  SBPlatformMore.GetOSMajorVersion (P := Loopback.state) None
    = (UINT32_MAX, None) /\
  SBPlatformMore.GetOSMinorVersion (P := Loopback.state) None
    = (UINT32_MAX, None) /\
  SBPlatformMore.GetOSUpdateVersion (P := Loopback.state) None
    = (UINT32_MAX, None).
Proof.
  exact (proj1 (version_getters_sentinel online) eq_refl eq_refl eq_refl).
Defined.

End MoreOnLoopback.
